(** * HealthGuard agent: control loop, action parser and tool dispatch

    A shallow embedding of [healthcareagent/agent.py] and
    [healthcareagent/tools/base.py].

    Python strings are modelled as [string]; a character is one of the code
    points 0..255.  Exceptions are values of [PyResult]; the language model
    provider, the JSON decoder and the side effects of tools are the fields
    of a [Runtime], threaded through the code as an explicit world state.
    The [while True] loop of [HealthGuardAgent.__call__] takes a fuel
    argument that bounds the number of provider round trips; [None] means
    the loop is still running when the fuel is spent. *)

From Stdlib Require Import Strings.String Strings.Ascii.
From Stdlib Require Import Lists.List Bool.Bool Arith.Arith micromega.Lia.
From Stdlib Require Import ZArith.ZArith.
Import ListNotations.
Open Scope string_scope.
Open Scope nat_scope.

(* ===================================================================== *)
(** * Part I.  Definitions *)
(* ===================================================================== *)

(** ** Python built-ins used by the agent *)

Module Py.

(** The line feed character and the one-character string ['\n']. *)
Definition LF : ascii := ascii_of_nat 10.
Definition nl : string := String LF "".

(** The double quote character. *)
Definition DQ : ascii := ascii_of_nat 34.

(** [str.isspace] on one character: U+0009..U+000D, U+001C..U+0020,
    U+0085 and U+00A0. *)
Definition isspace (c : ascii) : bool :=
  let n := nat_of_ascii c in
  ((9 <=? n) && (n <=? 13)) || ((28 <=? n) && (n <=? 32))
  || (n =? 133) || (n =? 160).

(** [str.lower] on one character: A..Z and the upper-case letters of
    U+00C0..U+00DE (all but the multiplication sign U+00D7). *)
Definition lower_char (c : ascii) : ascii :=
  let n := nat_of_ascii c in
  if ((65 <=? n) && (n <=? 90))
     || ((192 <=? n) && (n <=? 222) && negb (n =? 215))
  then ascii_of_nat (n + 32) else c.

Fixpoint lower (s : string) : string :=
  match s with
  | "" => ""
  | String c s' => String (lower_char c) (lower s')
  end.

Fixpoint lstrip (s : string) : string :=
  match s with
  | "" => ""
  | String c s' => if isspace c then lstrip s' else s
  end.

Fixpoint rstrip (s : string) : string :=
  match s with
  | "" => ""
  | String c s' =>
      match rstrip s' with
      | "" => if isspace c then "" else String c ""
      | r => String c r
      end
  end.

(** [s.strip()] *)
Definition strip (s : string) : string := rstrip (lstrip s).

(** Truth value of a string: [if s:] *)
Definition truthy (s : string) : bool :=
  match s with "" => false | _ => true end.

(** [s.startswith(p)] *)
Fixpoint startswith (s p : string) {struct p} : bool :=
  match p with
  | "" => true
  | String a p' =>
      match s with
      | "" => false
      | String b s' => Ascii.eqb a b && startswith s' p'
      end
  end.

(** [sub in s] *)
Fixpoint str_in (sub s : string) : bool :=
  startswith s sub
  || match s with
     | "" => false
     | String _ s' => str_in sub s'
     end.

(** [s[n:]] and [s[:n]] *)
Fixpoint drop (n : nat) (s : string) : string :=
  match n, s with
  | S n', String _ s' => drop n' s'
  | _, _ => s
  end.

Fixpoint take (n : nat) (s : string) : string :=
  match n, s with
  | S n', String c s' => String c (take n' s')
  | _, _ => ""
  end.

(** [s.find(sep)]: index of the first occurrence. *)
Fixpoint find (s sep : string) : option nat :=
  if startswith s sep then Some 0
  else match s with
       | "" => None
       | String _ s' => option_map S (find s' sep)
       end.

(** [s.split(sep)] for a non-empty [sep]: cut at the first occurrence,
    go on after it.  There are at most [length s] cuts. *)
Fixpoint split_from (fuel : nat) (s sep : string) : list string :=
  match fuel with
  | 0 => [s]
  | S fuel' =>
      match find s sep with
      | None => [s]
      | Some i => take i s :: split_from fuel' (drop (i + String.length sep) s) sep
      end
  end.

Definition split (s sep : string) : list string :=
  split_from (String.length s) s sep.

(** [s.replace(old, new)] for a non-empty [old]: occurrences are
    replaced from left to right, without overlap. *)
Fixpoint replace_from (fuel : nat) (s old new : string) : string :=
  match fuel with
  | 0 => s
  | S fuel' =>
      match find s old with
      | None => s
      | Some i =>
          take i s ++ new
          ++ replace_from fuel' (drop (i + String.length old) s) old new
      end
  end.

Definition replace (s old new : string) : string :=
  replace_from (String.length s) s old new.

(** [sep.join(l)] *)
Fixpoint join (sep : string) (l : list string) : string :=
  match l with
  | [] => ""
  | [x] => x
  | x :: xs => x ++ sep ++ join sep xs
  end.

(** [l[-1]]: [None] stands for the [IndexError] on an empty list. *)
Fixpoint last_item {A : Type} (l : list A) : option A :=
  match l with
  | [] => None
  | [x] => Some x
  | _ :: l' => last_item l'
  end.

(** [repr] of a string: single quotes unless the string holds a single
    quote and no double quote; the quote and the backslash are escaped,
    as are the characters that are not printable. *)
Definition hex_digit (n : nat) : ascii :=
  if n <? 10 then ascii_of_nat (48 + n) else ascii_of_nat (87 + n).

Definition hex2 (n : nat) : string :=
  String (hex_digit (n / 16)) (String (hex_digit (n mod 16)) "").

Definition repr_char (q c : ascii) : string :=
  let n := nat_of_ascii c in
  if Ascii.eqb c q || (n =? 92) then String (ascii_of_nat 92) (String c "")
  else if n =? 9 then "\t"
  else if n =? 10 then "\n"
  else if n =? 13 then "\r"
  else if (n <? 32) || ((127 <=? n) && (n <=? 160)) || (n =? 173)
  then "\x" ++ hex2 n
  else String c "".

Fixpoint repr_body (q : ascii) (s : string) : string :=
  match s with
  | "" => ""
  | String c s' => repr_char q c ++ repr_body q s'
  end.

Definition repr (s : string) : string :=
  let q := if str_in "'" s && negb (str_in (String DQ "") s)
           then DQ else "'"%char in
  String q (repr_body q s ++ String q "").

(** [repr] of a list of strings. *)
Definition repr_list (l : list string) : string :=
  "[" ++ join ", " (map repr l) ++ "]".

(** A [dict] with string keys: insertion ordered, one entry per key. *)
Definition dict (V : Type) : Type := list (string * V).

Fixpoint dict_get {V : Type} (k : string) (d : dict V) : option V :=
  match d with
  | [] => None
  | (k', v) :: d' => if String.eqb k' k then Some v else dict_get k d'
  end.

(** [d[k] = v]: an existing key keeps its position. *)
Fixpoint dict_set {V : Type} (k : string) (v : V) (d : dict V) : dict V :=
  match d with
  | [] => [(k, v)]
  | (k', v') :: d' =>
      if String.eqb k' k then (k', v) :: d' else (k', v') :: dict_set k v d'
  end.

(** [dict(pairs)] *)
Definition dict_of {V : Type} (pairs : list (string * V)) : dict V :=
  fold_left (fun d kv => dict_set (fst kv) (snd kv) d) pairs [].

(** [list(d.keys())] *)
Definition keys {V : Type} (d : dict V) : list string := map fst d.

End Py.

(** The outcome of a Python call: a value, or an exception (a subclass of
    [Exception]) with its [str(e)]. *)
Inductive PyResult (A : Type) : Type :=
| Ok (a : A)
| Exc (msg : string).
Arguments Ok {A} a.
Arguments Exc {A} msg.


(** ** Messages, tool arguments and the runtime *)

Inductive Role : Type := system | user | assistant.

(** A message of the conversation: [{"role": ..., "content": ...}]. *)
Record Message : Type := mkMessage { role : Role; content : string }.

(** What [_parse_action_string] hands to a tool: the value decoded by
    [json.loads], or the text itself when decoding raised. *)
Inductive ActionInput (J : Type) : Type :=
| Structured (v : J)
| Raw (s : string).
Arguments Structured {J} v.
Arguments Raw {J} s.

(** What the agent does not define itself: the world its calls act on, the
    values and the decoder of the [json] module ([None] when [json.loads]
    raises), and the two provider calls,
    [GenerativeModel(...).generate_content(prompt).text] and
    [client.chat.completions.create(...).choices[0].message.content]. *)
Class Runtime : Type := {
  World : Type;
  JSON : Type;
  json_loads : string -> option JSON;
  generate_content : string -> World -> PyResult string * World;
  chat_completions_create : list Message -> World -> PyResult string * World
}.

Inductive LLMProvider : Type := gemini | openai.

(** The two environment variables read by the constructor. *)
Record Environ : Type := {
  GOOGLE_API_KEY : option string;
  OPENAI_API_KEY : option string
}.

(** Truth value of [os.environ.get(key)]. *)
Definition env_set (v : option string) : bool :=
  match v with
  | Some s => Py.truthy s
  | None => false
  end.

(** [HEALTH_AGENT_SYSTEM_PROMPT.format(tools=..., tool_names=...)] *)
Definition HEALTH_AGENT_SYSTEM_PROMPT (tools tool_names : string) : string :=
"
You are HealthGuard, an AI healthcare assistant designed to help patients manage their health.
You have access to the following specialized healthcare tools:

" ++ tools ++ "

Always prioritize patient safety and well-being. Never provide medical diagnoses or replace professional medical advice.
Instead, focus on:
1. Helping patients track their medications and symptoms
2. Providing reliable health information from trusted sources
3. Offering general wellness suggestions
4. Organizing and visualizing health data

For any serious health concerns, always recommend consulting a healthcare professional.

Use the following format:

Patient: the patient's question or request
Thought: carefully consider the appropriate action to take
Action: the action to take, should be one of [" ++ tool_names ++ "]
Action Input: the input for the tool
Observation: the result of the action
... (this Thought/Action/Action Input/Observation can repeat as needed)
Thought: I now know how to respond to the patient
Response: your helpful, empathetic response to the patient

Begin!
".

Section Agent.

Context {R : Runtime}.

(** ** tools/base.py *)

Record HealthTool : Type := mkTool {
  name : string;
  description : string;
  arg : string;
  run : ActionInput JSON -> World -> PyResult string * World
}.

(** [HealthTool.model_post_init] *)
Definition model_post_init (self : HealthTool) : HealthTool :=
  {| name := Py.replace (Py.lower (name self)) " " "_";
     description := Py.lower (description self);
     arg := Py.lower (arg self);
     run := run self |}.

(** [HealthTool.get_tool_description] *)
Definition get_tool_description (self : HealthTool) : string :=
  "Tool: " ++ name self ++ Py.nl ++ "Description: " ++ description self
  ++ Py.nl ++ "Arg: " ++ arg self.

(** ** agent.py *)

Record HealthGuardAgent : Type := mkAgent {
  llm_provider : LLMProvider;
  tools : Py.dict HealthTool;
  health_prompt : string;
  messages : list Message;
  patient_id : option string
}.

(** [self.messages.append({"role": r, "content": c})] *)
Definition append_message (self : HealthGuardAgent) (r : Role) (c : string)
  : HealthGuardAgent :=
  {| llm_provider := llm_provider self;
     tools := tools self;
     health_prompt := health_prompt self;
     messages := messages self ++ [mkMessage r c];
     patient_id := patient_id self |}.

(** [self.messages = msgs] *)
Definition set_messages (self : HealthGuardAgent) (msgs : list Message)
  : HealthGuardAgent :=
  {| llm_provider := llm_provider self;
     tools := tools self;
     health_prompt := health_prompt self;
     messages := msgs;
     patient_id := patient_id self |}.

(** [HealthGuardAgent._format_tools] *)
Definition _format_tools (tools : list HealthTool) : Py.dict HealthTool :=
  let tool_names := map name tools in
  Py.dict_of (combine tool_names tools).

(** [HealthGuardAgent.__init__], with the default [health_prompt]; the
    [llm] argument is the client behind [chat_completions_create]. *)
Definition __init__ (env : Environ) (tools : list HealthTool)
    (system_prompt : option string) (patient_id : option string)
  : PyResult HealthGuardAgent :=
  let build provider :=
    let health_prompt :=
      HEALTH_AGENT_SYSTEM_PROMPT
        (Py.join (Py.nl ++ Py.nl) (map get_tool_description tools))
        (Py.join ", " (map name tools)) in
    let first :=
      match system_prompt with
      | Some p => if Py.truthy p then p else health_prompt
      | None => health_prompt
      end in
    Ok {| llm_provider := provider;
          tools := _format_tools tools;
          health_prompt := health_prompt;
          messages := [mkMessage system first];
          patient_id := patient_id |} in
  if env_set (GOOGLE_API_KEY env) then build gemini
  else if env_set (OPENAI_API_KEY env) then build openai
  else Exc "Neither GOOGLE_API_KEY nor OPENAI_API_KEY environment variables are set".

(** The state of the scan in [_parse_action_string]. *)
Record ParseState : Type := mkParse {
  action : option string;
  action_input : list string;
  is_action_input : bool
}.

(** One round of [for line in lines]. *)
Definition parse_line (st : ParseState) (line : string) : ParseState :=
  if Py.startswith line "Action:" then
    mkParse (Some (Py.strip (Py.replace line "Action:" "")))
            (action_input st) (is_action_input st)
  else if Py.startswith line "Action Input:" then
    let input_text := Py.strip (Py.replace line "Action Input:" "") in
    mkParse (action st)
            (if Py.truthy input_text
             then action_input st ++ [input_text] else action_input st)
            true
  else if Py.startswith line "Observation:" then
    mkParse (action st) (action_input st) false
  else if is_action_input st && Py.truthy (Py.strip line) then
    mkParse (action st) (action_input st ++ [Py.strip line])
            (is_action_input st)
  else st.

Definition parse_lines (st : ParseState) (lines : list string) : ParseState :=
  fold_left parse_line lines st.

Definition parse_start : ParseState := mkParse None [] false.

(** The [try: json.loads ... except Exception: pass] at the end. *)
Definition decode_input (text : string) : ActionInput JSON :=
  match json_loads text with
  | Some v => Structured v
  | None => Raw text
  end.

(** [HealthGuardAgent._parse_action_string] *)
Definition _parse_action_string (text : string)
  : option string * ActionInput JSON :=
  let lines := Py.split text Py.nl in
  let st := parse_lines parse_start lines in
  (action st, decode_input (Py.join Py.nl (action_input st))).

(** [f"{action}"] *)
Definition format_action (action : option string) : string :=
  match action with
  | Some a => a
  | None => "None"
  end.

Definition tool_not_found (self : HealthGuardAgent) (action : option string)
  : string :=
  "Observation: Tool '" ++ format_action action
  ++ "' not found. Available tools: "
  ++ Py.repr_list (Py.keys (tools self)).

(** The tool selected by [if action and action.strip().lower() in
    self.tools]. *)
Definition selected_tool (self : HealthGuardAgent) (action : option string)
  : option HealthTool :=
  match action with
  | Some a =>
      if Py.truthy a
      then Py.dict_get (Py.lower (Py.strip a)) (tools self)
      else None
  | None => None
  end.

(** [HealthGuardAgent._tool_call] *)
Definition _tool_call (self : HealthGuardAgent) (response : string)
    (w : World) : string * World :=
  let '(action, action_input) := _parse_action_string response in
  match selected_tool self action with
  | Some tool =>
      match run tool action_input w with
      | (Ok tool_observation, w') =>
          ("Observation: " ++ tool_observation, w')
      | (Exc e, w') =>
          ("Observation: There was an error executing the tool." ++ Py.nl
           ++ "Error: " ++ e, w')
      end
  | None => (tool_not_found self action, w)
  end.

(** [HealthGuardAgent._get_openai_response] *)
Definition _get_openai_response (self : HealthGuardAgent) (w : World)
  : PyResult string * World :=
  match chat_completions_create (messages self) w with
  | (Ok text, w') => (Ok (Py.strip text), w')
  | (Exc e, w') => (Exc e, w')
  end.

Definition prompt_part (message : Message) : string :=
  match role message with
  | system => "System: " ++ content message
  | user => "User: " ++ content message
  | assistant => "Assistant: " ++ content message
  end.

(** [HealthGuardAgent._get_gemini_response] *)
Definition _get_gemini_response (self : HealthGuardAgent) (w : World)
  : PyResult string * World :=
  let prompt_parts := map prompt_part (messages self) in
  let full_prompt := Py.join (Py.nl ++ Py.nl) prompt_parts in
  generate_content full_prompt w.

Definition get_response (self : HealthGuardAgent) (w : World)
  : PyResult string * World :=
  match llm_provider self with
  | gemini => _get_gemini_response self w
  | openai => _get_openai_response self w
  end.

(** The [while True] loop of [__call__]; an exception leaves the loop
    with the state reached so far. *)
Fixpoint agent_loop (fuel : nat) (self : HealthGuardAgent) (w : World)
  : option (PyResult string * HealthGuardAgent * World) :=
  match fuel with
  | 0 => None
  | S fuel' =>
      match get_response self w with
      | (Exc e, w1) => Some (Exc e, self, w1)
      | (Ok response, w1) =>
          let self1 := append_message self assistant response in
          if Py.str_in "Response:" response then
            match Py.last_item (Py.split response "Response:") with
            | Some final => Some (Ok (Py.strip final), self1, w1)
            | None => Some (Exc "list index out of range", self1, w1)
            end
          else if Py.str_in "Action:" response
                  && Py.str_in "Action Input:" response then
            let '(observation, w2) := _tool_call self1 response w1 in
            agent_loop fuel' (append_message self1 user observation) w2
          else agent_loop fuel' self1 w1
      end
  end.

Definition apology : string :=
  "I apologize, but I encountered a technical issue. Please try again or contact support if the problem persists.".

(** [HealthGuardAgent.__call__]: the patient message is appended, the
    loop runs inside [try], and [except Exception] returns the apology. *)
Definition __call__ (fuel : nat) (self : HealthGuardAgent) (prompt : string)
    (w : World) : option (PyResult string * HealthGuardAgent * World) :=
  let self0 := append_message self user ("Patient: " ++ prompt) in
  match agent_loop fuel self0 w with
  | None => None
  | Some (Ok final, self', w') => Some (Ok final, self', w')
  | Some (Exc _, self', w') => Some (Ok apology, self', w')
  end.

(** [HealthGuardAgent.get_conversation_history] *)
Definition get_conversation_history (self : HealthGuardAgent)
  : list Message := messages self.

(** [HealthGuardAgent.clear_conversation]; [self.messages[0]] raises on
    an empty list. *)
Definition clear_conversation (self : HealthGuardAgent)
  : PyResult string * HealthGuardAgent :=
  match messages self with
  | system_prompt :: _ =>
      (Ok "Conversation history cleared.", set_messages self [system_prompt])
  | [] => (Exc "list index out of range", self)
  end.

(** The calls a client makes on an agent, and their effect on the agent
    and the world.  A call of [__call__] that is still running when its
    fuel is spent has no outcome. *)
Inductive AgentCall : Type :=
| CallHandle (fuel : nat) (prompt : string)
| CallHistory
| CallClear.

Definition run_call (c : AgentCall) (self : HealthGuardAgent) (w : World)
  : option (HealthGuardAgent * World) :=
  match c with
  | CallHandle fuel prompt =>
      match __call__ fuel self prompt w with
      | Some (_, self', w') => Some (self', w')
      | None => None
      end
  | CallHistory => Some (self, w)
  | CallClear => Some (snd (clear_conversation self), w)
  end.

Fixpoint run_calls (cs : list AgentCall) (self : HealthGuardAgent)
    (w : World) : option (HealthGuardAgent * World) :=
  match cs with
  | [] => Some (self, w)
  | c :: cs' =>
      match run_call c self w with
      | Some (self', w') => run_calls cs' self' w'
      | None => None
      end
  end.

(** *** Notions used to state the properties *)

(** A completion with neither a [Response:] marker nor both an [Action:]
    and an [Action Input:] marker. *)
Definition malformed (completion : string) : bool :=
  negb (Py.str_in "Response:" completion)
  && negb (Py.str_in "Action:" completion
           && Py.str_in "Action Input:" completion).

(** The agent and the world after [k] rounds of the loop in each of
    which the provider returned a malformed completion. *)
Fixpoint after_malformed (k : nat) (self : HealthGuardAgent) (w : World)
  : option (HealthGuardAgent * World) :=
  match k with
  | 0 => Some (self, w)
  | S k' =>
      match get_response self w with
      | (Ok completion, w1) =>
          if malformed completion
          then after_malformed k' (append_message self assistant completion) w1
          else None
      | (Exc _, _) => None
      end
  end.

(** What the scan appends to [action_input] over [lines], when it enters
    them with [is_action_input = flag]. *)
Definition collected (flag : bool) (lines : list string) : list string :=
  action_input (parse_lines (mkParse None [] flag) lines).

(** What an [Action Input:] line itself appends. *)
Definition input_of (line : string) : list string :=
  let input_text := Py.strip (Py.replace line "Action Input:" "") in
  if Py.truthy input_text then [input_text] else [].

(** A line that begins with none of the three markers of the scan. *)
Definition plain_line (line : string) : bool :=
  negb (Py.startswith line "Action:")
  && negb (Py.startswith line "Action Input:")
  && negb (Py.startswith line "Observation:").

End Agent.

(** ** A concrete runtime

    The theorems below hold for every [Runtime].  The runtime of this
    section instantiates them: its provider replies from a script, its
    tools record their calls in the world, and its decoder reads the JSON
    texts made of [null], [true], [false], unsigned integers, strings
    without escapes, arrays and objects (on every other text it answers
    [None]; the examples decode no other JSON text). *)

#[local] Unset Elimination Schemes.
Inductive JValue : Type :=
| JNull
| JBool (b : bool)
| JNumber (n : nat)
| JString (s : string)
| JArray (items : list JValue)
| JObject (members : list (string * JValue)).
#[local] Set Elimination Schemes.

Module Json.

Definition is_ws (c : ascii) : bool :=
  let n := nat_of_ascii c in
  (n =? 32) || (n =? 9) || (n =? 10) || (n =? 13).

Definition is_digit (c : ascii) : bool :=
  let n := nat_of_ascii c in (48 <=? n) && (n <=? 57).

Fixpoint skip_ws (s : string) : string :=
  match s with
  | "" => ""
  | String c s' => if is_ws c then skip_ws s' else s
  end.

(** The characters up to the closing quote, and the text after it. *)
Fixpoint string_body (s : string) : option (string * string) :=
  match s with
  | "" => None
  | String c s' =>
      let n := nat_of_ascii c in
      if n =? 34 then Some ("", s')
      else if (n =? 92) || (n <? 32) then None
      else match string_body s' with
           | Some (x, r) => Some (String c x, r)
           | None => None
           end
  end.

Fixpoint digits (acc : nat) (s : string) : nat * string :=
  match s with
  | "" => (acc, "")
  | String c s' =>
      if is_digit c then digits (10 * acc + (nat_of_ascii c - 48)) s'
      else (acc, s)
  end.

Fixpoint value (fuel : nat) (s : string) : option (JValue * string) :=
  match fuel with
  | 0 => None
  | S fuel' =>
      match skip_ws s with
      | "" => None
      | String c r =>
          let n := nat_of_ascii c in
          if n =? 34 then
            match string_body r with
            | Some (x, r') => Some (JString x, r')
            | None => None
            end
          else if n =? 91 then
            match skip_ws r with
            | String "]" r' => Some (JArray [], r')
            | _ => elements fuel' r []
            end
          else if n =? 123 then
            match skip_ws r with
            | String "}" r' => Some (JObject [], r')
            | _ => members fuel' r []
            end
          else if is_digit c then
            if (n =? 48) && Py.truthy r
               && match r with String d _ => is_digit d | "" => false end
            then None
            else let '(k, r') := digits 0 (String c r) in Some (JNumber k, r')
          else if Py.startswith (String c r) "null" then
            Some (JNull, Py.drop 3 r)
          else if Py.startswith (String c r) "true" then
            Some (JBool true, Py.drop 3 r)
          else if Py.startswith (String c r) "false" then
            Some (JBool false, Py.drop 4 r)
          else None
      end
  end
with elements (fuel : nat) (s : string) (acc : list JValue)
  : option (JValue * string) :=
  match fuel with
  | 0 => None
  | S fuel' =>
      match value fuel' s with
      | Some (v, r) =>
          match skip_ws r with
          | String "," r' => elements fuel' r' (v :: acc)
          | String "]" r' => Some (JArray (rev (v :: acc)), r')
          | _ => None
          end
      | None => None
      end
  end
with members (fuel : nat) (s : string) (acc : list (string * JValue))
  : option (JValue * string) :=
  match fuel with
  | 0 => None
  | S fuel' =>
      match skip_ws s with
      | String c r =>
          if nat_of_ascii c =? 34 then
            match string_body r with
            | Some (k, r1) =>
                match skip_ws r1 with
                | String ":" r2 =>
                    match value fuel' r2 with
                    | Some (v, r3) =>
                        match skip_ws r3 with
                        | String "," r4 => members fuel' r4 ((k, v) :: acc)
                        | String "}" r4 =>
                            Some (JObject (rev ((k, v) :: acc)), r4)
                        | _ => None
                        end
                    | None => None
                    end
                | _ => None
                end
            | None => None
            end
          else None
      | "" => None
      end
  end.

Definition loads (s : string) : option JValue :=
  match value (2 * String.length s + 2) s with
  | Some (v, r) =>
      match skip_ws r with
      | "" => Some v
      | _ => None
      end
  | None => None
  end.

End Json.

(** The world of the concrete runtime: the provider's replies by call
    number, the number of provider calls made, and the tool calls made. *)
Record DemoWorld : Type := mkWorld {
  replies : nat -> PyResult string;
  asked : nat;
  tool_calls : list (string * ActionInput JValue)
}.

Definition demo_reply (w : DemoWorld) : PyResult string * DemoWorld :=
  (replies w (asked w), mkWorld (replies w) (S (asked w)) (tool_calls w)).

Definition demo_runtime : Runtime :=
  {| World := DemoWorld;
     JSON := JValue;
     json_loads := Json.loads;
     generate_content := fun _ w => demo_reply w;
     chat_completions_create := fun _ w => demo_reply w |}.

(** A tool that records its call and answers [reply]. *)
Definition demo_run (label reply : string) (input : ActionInput JValue)
    (w : DemoWorld) : PyResult string * DemoWorld :=
  (Ok reply,
   mkWorld (replies w) (asked w) (tool_calls w ++ [(label, input)])).

(** A tool as it is declared, and as its construction leaves it. *)
Definition raw_tool (raw_name reply : string) : HealthTool (R := demo_runtime) :=
  mkTool (R := demo_runtime) raw_name "Demo tool" "text"
         (demo_run raw_name reply).

Definition demo_tool (raw_name reply : string) : HealthTool (R := demo_runtime) :=
  model_post_init (raw_tool raw_name reply).

Definition medication_tool := demo_tool "Medication Tool" "2 medications".
Definition symptom_tool := demo_tool "Symptom Tool" "no symptoms".

Definition demo_env : Environ :=
  {| GOOGLE_API_KEY := Some "key"; OPENAI_API_KEY := None |}.

(** The agent of Scenario A: the registry holds [medication_tool] and
    [symptom_tool]. *)
Definition demo_agent : HealthGuardAgent (R := demo_runtime) :=
  match __init__ demo_env [medication_tool; symptom_tool] None (Some "p1") with
  | Ok a => a
  | Exc _ => mkAgent gemini [] "" [] None
  end.

(** A world whose provider gives the same outcome at every call. *)
Definition always (r : PyResult string) : DemoWorld :=
  mkWorld (fun _ => r) 0 [].

(** A world whose provider replies with the texts of [script] in turn, and
    fails once they are used up. *)
Definition scripted (script : list string) : DemoWorld :=
  mkWorld (fun n => match nth_error script n with
                    | Some text => Ok text
                    | None => Exc "quota exceeded"
                    end) 0 [].

Definition DQs : string := String Py.DQ "".

Definition scenario_A_input : string :=
  "Action Input: {" ++ DQs ++ "action" ++ DQs ++ ":" ++ DQs ++ "list" ++ DQs
  ++ "," ++ DQs ++ "patient_id" ++ DQs ++ ":" ++ DQs ++ "p1" ++ DQs ++ "}".

Definition scenario_A : string :=
  "Thought: ok" ++ Py.nl ++ "Action: medication_tool" ++ Py.nl
  ++ scenario_A_input ++ Py.nl ++ "Observation:".

(** An agent of the concrete runtime over the tools [ts]. *)
Definition agent_with (ts : list (HealthTool (R := demo_runtime)))
  : HealthGuardAgent (R := demo_runtime) :=
  match __init__ demo_env ts None None with
  | Ok a => a
  | Exc _ => mkAgent gemini [] "" [] None
  end.

(** A completion that holds a tool step and, after it, a final response
    in which the marker occurs twice. *)
Definition both_markers : string :=
  "Thought: done" ++ Py.nl ++ "Action: medication_tool" ++ Py.nl
  ++ "Action Input: list" ++ Py.nl
  ++ "Response: see Response: Take your pill at 8am.  ".

(** The agent of Scenario A once a patient message is appended. *)
Definition asking : HealthGuardAgent (R := demo_runtime) :=
  append_message demo_agent user "Patient: hello".

(** The world [w] after [n] provider calls and no tool call. *)
Definition asked_times (n : nat) (w : DemoWorld) : DemoWorld :=
  mkWorld (replies w) n [].

(** A completion that uses the declared, spaced form of a tool name. *)
Definition spaced_step : string :=
  "Action: Medication Tool" ++ Py.nl ++ "Action Input: list".

(** A completion whose [Action:] line names the tool declared as
    ["Refill "], trailing space included. *)
Definition refill_step : string :=
  "Action: Refill " ++ Py.nl ++ "Action Input: x".

(** A completion whose [Action:] line gives the empty name. *)
Definition nameless_step : string :=
  "Action: " ++ Py.nl ++ "Action Input: x".

(** A completion with no marker at all. *)
Definition no_marker : string := "Thought: let me think about this.".

(** A completion that names a tool the registry does not hold. *)
Definition unknown_step : string :=
  "Thought: ok" ++ Py.nl ++ "Action: unknown_tool" ++ Py.nl
  ++ "Action Input: x".

(** Two tools whose names are the same once normalized. *)
Definition first_tool := demo_tool "Medication Tool" "first".
Definition second_tool := demo_tool "medication tool" "second".

(** A tool registered under the empty name. *)
Definition nameless_tool := demo_tool "" "ran".

(** A tool whose declared name ends with a space, next to a tool that
    bears the trimmed name. *)
Definition refill_spaced := demo_tool "Refill " "refilled".
Definition refill_plain := demo_tool "refill" "stock".

(** An argument over three lines, the second one indented. *)
Definition indented_input : string :=
  "Action: symptom_tool" ++ Py.nl ++ "Action Input: first" ++ Py.nl
  ++ "   indented line  " ++ Py.nl ++ "Observation: done".

(** A completion with two [Action Input:] lines. *)
Definition two_inputs : string :=
  "Action: symptom_tool" ++ Py.nl ++ "Action Input: a" ++ Py.nl
  ++ "more" ++ Py.nl ++ "Action Input: b".

(** ** Further code of the repository *)

(** *** app.py *)

(** [get_llm_provider] *)
Definition get_llm_provider (env : Environ) : string :=
  if env_set (GOOGLE_API_KEY env) then "Google Gemini"
  else if env_set (OPENAI_API_KEY env) then "OpenAI GPT"
  else "Unknown Provider (No API Key Detected)".

(** [str.isalnum] on one character. *)
Definition isalnum (c : ascii) : bool :=
  let n := nat_of_ascii c in
  ((48 <=? n) && (n <=? 57)) || ((65 <=? n) && (n <=? 90))
  || ((97 <=? n) && (n <=? 122)) || (n =? 170)
  || ((178 <=? n) && (n <=? 179)) || (n =? 181)
  || ((185 <=? n) && (n <=? 186)) || ((188 <=? n) && (n <=? 190))
  || ((192 <=? n) && (n <=? 214)) || ((216 <=? n) && (n <=? 246))
  || (248 <=? n).

(** [c.isalnum() or c in ('_', '-')] *)
Definition id_char (c : ascii) : bool :=
  isalnum c || Ascii.eqb c "_" || Ascii.eqb c "-".

(** ["".join(c for c in s if keep(c))] *)
Fixpoint keep_chars (keep : ascii -> bool) (s : string) : string :=
  match s with
  | "" => ""
  | String c s' =>
      if keep c then String c (keep_chars keep s') else keep_chars keep s'
  end.

(** The [safe_patient_id] of [save_chat_history] and [load_chat_history]. *)
Definition safe_patient_id (patient_id : string) : string :=
  let safe_patient_id := Py.rstrip (keep_chars id_char patient_id) in
  if Py.truthy safe_patient_id then safe_patient_id else "default_patient".

(** The name of the [history_file] within the data directory. *)
Definition history_file (patient_id : string) : string :=
  "chat_history_" ++ safe_patient_id patient_id ++ ".json".

(** *** tools/medical_info.py *)

Definition sensitive_keywords : list string :=
  ["diagnose"; "diagnosis"; "cancer"; "terminal"; "fatal"; "emergency";
   "life-threatening"; "critical"; "urgent medical"; "suicide"; "self-harm"].

(** [MedicalInfoTool._is_sensitive_query] *)
Definition _is_sensitive_query (prompt : string) : bool :=
  let prompt_lower := Py.lower prompt in
  existsb (fun keyword => Py.str_in keyword prompt_lower) sensitive_keywords.

(** *** Values of a decoded request

    The values a tool finds in the dictionary it is called with, as far
    as the code below tells them apart: texts, integers, booleans,
    [None], lists and dictionaries.  Floats are left out. *)
Inductive PyValue : Type :=
| VStr (s : string)
| VInt (z : Z)
| VBool (b : bool)
| VNone
| VList
| VDict.

(** [d.get(k, default)] *)
Definition dict_get_default {V : Type} (k : string) (d : Py.dict V)
    (default : V) : V :=
  match Py.dict_get k d with
  | Some v => v
  | None => default
  end.


(** *** tools/symptom.py *)

(** The [severity_map] of [SymptomTool._log_symptom]. *)
Definition severity_map : Py.dict Z :=
  [("mild", 3); ("light", 3); ("minor", 2); ("minimal", 1); ("slight", 2);
   ("moderate", 5); ("medium", 5); ("average", 5);
   ("severe", 8); ("intense", 8); ("extreme", 10); ("worst", 10);
   ("serious", 9); ("very mild", 2); ("very severe", 9)]%Z.

(** [max(1, min(10, severity))] *)
Definition clamp_severity (severity : Z) : Z := Z.max 1 (Z.min 10 severity).

(** The severity that [SymptomTool._log_symptom] stores for
    [data["severity"]]: a text is looked up, lower-cased, in
    [severity_map], with 5 for a text the map does not hold; the value is
    then passed to [int], which is the identity on an integer, gives 0 or
    1 on a boolean, and raises [TypeError], caught with the result 5, on
    [None], a list or a dictionary; the integer is clamped. *)
Definition symptom_severity (severity : PyValue) : Z :=
  match severity with
  | VStr s => clamp_severity (dict_get_default (Py.lower s) severity_map 5%Z)
  | VInt z => clamp_severity z
  | VBool b => clamp_severity (if b then 1 else 0)%Z
  | VNone | VList | VDict => 5%Z
  end.

(** The [severity_desc] of [SymptomTool._log_symptom], with the default
    of [severity_desc.get(severity, '')]. *)
Definition severity_desc (severity : Z) : string :=
  match severity with
  | 1%Z => "very mild"
  | 2%Z => "mild"
  | 3%Z => "mild to moderate"
  | 4%Z => "moderate"
  | 5%Z => "moderate"
  | 6%Z => "moderate to severe"
  | 7%Z => "severe"
  | 8%Z => "severe"
  | 9%Z => "very severe"
  | 10%Z => "extreme"
  | _ => ""
  end.

(** *** tools/medication.py *)





(** *** Notions and inputs for the further properties of the agent *)

(** What a turn appends after the patient message: assistant messages,
    and user messages that begin with [Observation: ]. *)
Definition turn_message (m : Message) : bool :=
  match role m with
  | assistant => true
  | user => Py.startswith (content m) "Observation: "
  | system => false
  end.

(** A tool that always raises. *)
Definition locked_tool : HealthTool (R := demo_runtime) :=
  model_post_init
    (mkTool (R := demo_runtime) "Symptom Tool" "Demo tool" "text"
       (fun _ w => (Exc "database is locked", w))).

(** A completion that calls the symptom tool. *)
Definition symptom_step : string :=
  "Thought: ok" ++ Py.nl ++ "Action: symptom_tool" ++ Py.nl
  ++ "Action Input: list".

(** A completion whose [Action:] line is indented. *)
Definition indented_action : string :=
  "Thought: ok" ++ Py.nl ++ "  Action: medication_tool" ++ Py.nl
  ++ "Action Input: list".

(** *** Notions and inputs for the lines of an argument *)

(** What a line read while the argument is open appends to it, when the
    line does not begin with [Observation:]: nothing for an [Action:]
    line, its own text for an [Action Input:] line, and for any other
    line the line stripped, unless that is empty. *)
Definition continuation_of (line : string) : list string :=
  if Py.startswith line "Action:" then []
  else if Py.startswith line "Action Input:" then input_of line
  else if Py.truthy (Py.strip line) then [Py.strip line]
  else [].

(** An argument whose lines are interrupted by an [Action:] line and a
    blank line, with text before and after it. *)
Definition interrupted_input : string :=
  "Thought: ok" ++ Py.nl ++ "Action Input: first" ++ Py.nl
  ++ "Action: symptom_tool" ++ Py.nl ++ "   indented line  " ++ Py.nl
  ++ "  " ++ Py.nl ++ "last" ++ Py.nl ++ "Observation: done" ++ Py.nl
  ++ "Thought: bye".

(** The agent whose only tool always raises, once a patient message is
    appended. *)
Definition asking_locked : HealthGuardAgent (R := demo_runtime) :=
  append_message (agent_with [locked_tool]) user "Patient: hello".

(* ===================================================================== *)
(** * Part II.  Properties *)
(* ===================================================================== *)

(** ** Runs on concrete inputs *)

Example split_lines :
  Py.split ("a" ++ Py.nl ++ "b" ++ Py.nl) Py.nl = ["a"; "b"; ""].
Proof. reflexivity. Qed.

Example split_Response :
  Py.split "x Response: y Response: z" "Response:" = ["x "; " y "; " z"].
Proof. reflexivity. Qed.

Example replace_marker : Py.replace "Action: foo Action:" "Action:" "" = " foo ".
Proof. reflexivity. Qed.

Example strip_both : Py.strip "  a b  " = "a b".
Proof. reflexivity. Qed.

Example repr_quotes :
  Py.repr_list ["medication_tool"; "it's"]
  = "['medication_tool', " ++ DQs ++ "it's" ++ DQs ++ "]".
Proof. reflexivity. Qed.

Example loads_empty : Json.loads "" = None.
Proof. reflexivity. Qed.

Example loads_array :
  Json.loads " [1, [true, null], 20 ] "
  = Some (JArray [JNumber 1; JArray [JBool true; JNull]; JNumber 20]).
Proof. vm_compute. reflexivity. Qed.

Example loads_text : Json.loads "hello" = None.
Proof. reflexivity. Qed.

(** Scenario A: the argument reaches the tool decoded, not as text. *)
Example parse_scenario_A :
  _parse_action_string (R := demo_runtime) scenario_A
  = (Some "medication_tool",
     Structured (JObject [("action", JString "list");
                          ("patient_id", JString "p1")])).
Proof. vm_compute. reflexivity. Qed.

Example registry_keys :
  Py.keys (tools demo_agent) = ["medication_tool"; "symptom_tool"].
Proof. vm_compute. reflexivity. Qed.

(** ** Strings *)

Section StringFacts.

Lemma append_nil_r (s : string) : s ++ "" = s.
Proof. induction s as [|c s IH]; simpl; [reflexivity | now rewrite IH]. Qed.

Lemma append_assoc (a b c : string) : (a ++ b) ++ c = a ++ (b ++ c).
Proof. induction a as [|x a IH]; simpl; [reflexivity | now rewrite IH]. Qed.

Lemma length_append (a b : string) :
  String.length (a ++ b) = String.length a + String.length b.
Proof. induction a as [|x a IH]; simpl; [reflexivity | now rewrite IH]. Qed.

Lemma startswith_append (p r : string) : Py.startswith (p ++ r) p = true.
Proof.
  induction p as [|c p IH]; simpl; [reflexivity |].
  now rewrite Ascii.eqb_refl, IH.
Qed.

Lemma startswith_inv (p s : string) :
  Py.startswith s p = true -> exists r, s = p ++ r.
Proof.
  revert s. induction p as [|c p IH]; intros s H.
  - now exists s.
  - destruct s as [|b s]; simpl in H; [discriminate |].
    apply andb_true_iff in H as [Hc Hp].
    apply Ascii.eqb_eq in Hc. subst b.
    destruct (IH _ Hp) as [r ->]. now exists r.
Qed.

Lemma startswith_empty (p : string) : p <> "" -> Py.startswith "" p = false.
Proof. destruct p; [congruence | reflexivity]. Qed.

Lemma take_drop (n : nat) (s : string) : Py.take n s ++ Py.drop n s = s.
Proof.
  revert s. induction n as [|n IH]; intros [|c s]; simpl; try reflexivity.
  now rewrite IH.
Qed.

Lemma drop_0 (s : string) : Py.drop 0 s = s.
Proof. now destruct s. Qed.

Lemma drop_empty (n : nat) : Py.drop n "" = "".
Proof. now destruct n. Qed.

Lemma drop_drop (n m : nat) (s : string) :
  Py.drop n (Py.drop m s) = Py.drop (m + n) s.
Proof.
  revert s. induction m as [|m IH]; intros s; simpl.
  - reflexivity.
  - destruct s as [|c s]; [now rewrite drop_empty | apply IH].
Qed.

Lemma drop_append (a b : string) : Py.drop (String.length a) (a ++ b) = b.
Proof. induction a as [|c a IH]; simpl; [apply drop_0 | exact IH]. Qed.

Lemma length_drop (n : nat) (s : string) :
  String.length (Py.drop n s) = String.length s - n.
Proof.
  revert s. induction n as [|n IH]; intros [|c s]; simpl; auto.
Qed.

Lemma str_in_drop (sub s : string) (k : nat) :
  Py.startswith (Py.drop k s) sub = true -> Py.str_in sub s = true.
Proof.
  revert k. induction s as [|c s IH]; intros k H.
  - rewrite drop_empty in H. simpl. now rewrite H.
  - destruct k as [|k]; simpl in *.
    + now rewrite H.
    + rewrite (IH k H). apply orb_true_r.
Qed.

Lemma str_in_append (sub a b : string) :
  Py.str_in sub (a ++ sub ++ b) = true.
Proof.
  apply (str_in_drop _ _ (String.length a)).
  rewrite drop_append. apply startswith_append.
Qed.

Lemma str_in_append_r (sub a b : string) :
  Py.str_in sub b = true -> Py.str_in sub (a ++ b) = true.
Proof.
  intros H. induction a as [|c a IH]; simpl; [exact H |].
  rewrite IH. apply orb_true_r.
Qed.

Lemma str_in_inv (sub s : string) :
  Py.str_in sub s = true -> exists a b, s = a ++ sub ++ b.
Proof.
  induction s as [|c s IH]; simpl; intros H.
  - rewrite orb_false_r in H. apply startswith_inv in H as [r ->].
    now exists "", r.
  - apply orb_true_iff in H as [H | H].
    + apply startswith_inv in H as [r ->]. now exists "", r.
    + destruct (IH H) as (a & b & ->). now exists (String c a), b.
Qed.

Lemma find_None (s sep : string) :
  Py.find s sep = None -> Py.str_in sep s = false.
Proof.
  induction s as [|c s IH]; simpl.
  - destruct (Py.startswith "" sep); [discriminate | reflexivity].
  - destruct (Py.startswith (String c s) sep); [discriminate |].
    destruct (Py.find s sep); [discriminate |]. intros _. now rewrite IH.
Qed.

Lemma find_Some (s sep : string) (i : nat) :
  Py.find s sep = Some i ->
  s = Py.take i s ++ sep ++ Py.drop (i + String.length sep) s.
Proof.
  revert i. induction s as [|c s IH]; intros i; simpl.
  - destruct (Py.startswith "" sep) eqn:E; [| discriminate].
    intros [= <-]. apply startswith_inv in E as [r E]. simpl.
    rewrite E at 2. rewrite drop_append. exact E.
  - destruct (Py.startswith (String c s) sep) eqn:E.
    + intros [= <-]. apply startswith_inv in E as [r E]. simpl.
      rewrite E at 2. rewrite drop_append. exact E.
    + destruct (Py.find s sep) as [j|]; [| discriminate].
      intros [= <-]. simpl. f_equal. now apply IH.
Qed.

Lemma last_item_cons {A : Type} (a x : A) (l : list A) :
  Py.last_item l = Some x -> Py.last_item (a :: l) = Some x.
Proof. destruct l; [discriminate | auto]. Qed.

(** The last piece of a split holds no separator, and is either the whole
    string or what follows a separator. *)
Lemma split_from_last (sep : string) :
  sep <> "" ->
  forall (n : nat) (s : string),
    String.length s <= n ->
    exists x,
      Py.last_item (Py.split_from n s sep) = Some x
      /\ Py.str_in sep x = false
      /\ (s = x \/ exists pre, s = pre ++ sep ++ x).
Proof.
  intros Hsep. induction n as [|n IH]; intros s Hlen.
  - destruct s; [| simpl in Hlen; lia]. exists "". simpl.
    rewrite (startswith_empty _ Hsep). auto.
  - simpl. destruct (Py.find s sep) as [i|] eqn:F.
    + assert (Hs := find_Some _ _ _ F).
      destruct (IH (Py.drop (i + String.length sep) s)) as (x & L & N & D).
      { rewrite length_drop. destruct sep; [congruence | simpl; lia]. }
      exists x. split; [now apply last_item_cons | split; [exact N |]].
      right. destruct D as [D | [pre D]].
      * exists (Py.take i s). now rewrite <- D.
      * exists (Py.take i s ++ sep ++ pre).
        rewrite !append_assoc, <- D. exact Hs.
    + exists s. split; [reflexivity | split; [now apply find_None | now left]].
Qed.

Lemma split_nonempty (s sep : string) : Py.split s sep <> [].
Proof.
  unfold Py.split. destruct (String.length s); simpl; [discriminate |].
  destruct (Py.find s sep); discriminate.
Qed.

(** Two occurrences of ["Response:"] do not overlap. *)
Lemma Response_unbordered (d : nat) (x : string) :
  0 < d < 9 -> Py.startswith (Py.drop d ("Response:" ++ x)) "Response:" = false.
Proof.
  intros H.
  do 9 (destruct d as [|d]; [try lia; reflexivity |]). lia.
Qed.

(** [s.split("Response:")[-1]] is the text after the last occurrence of
    the marker. *)
Lemma split_Response_last (s : string) :
  Py.str_in "Response:" s = true ->
  exists p,
    Py.startswith (Py.drop p s) "Response:" = true
    /\ (forall q, p < q -> Py.startswith (Py.drop q s) "Response:" = false)
    /\ Py.last_item (Py.split s "Response:") = Some (Py.drop (p + 9) s).
Proof.
  intros Hin.
  destruct (split_from_last "Response:" ltac:(discriminate)
              (String.length s) s (le_n _)) as (x & L & N & D).
  destruct D as [D | [pre D]].
  - subst x. congruence.
  - exists (String.length pre). subst s. split; [| split].
    + rewrite drop_append. apply startswith_append.
    + intros q Hq.
      replace q with (String.length pre + (q - String.length pre)) by lia.
      rewrite <- drop_drop, drop_append.
      destruct (Nat.lt_ge_cases (q - String.length pre) 9) as [Hd | Hd].
      * apply Response_unbordered. lia.
      * replace (q - String.length pre) with (9 + (q - String.length pre - 9)) by lia.
        rewrite <- drop_drop.
        change (Py.drop 9 ("Response:" ++ x)) with x.
        destruct (Py.startswith _ _) eqn:E; [| reflexivity].
        apply str_in_drop in E. congruence.
    + fold (Py.split (pre ++ "Response:" ++ x) "Response:") in L.
      rewrite L. f_equal.
      now rewrite <- drop_drop, drop_append.
Qed.

Lemma join_In (sep x : string) (l : list string) :
  In x l -> exists a b, Py.join sep l = a ++ x ++ b.
Proof.
  induction l as [|y l IH]; [intros [] |].
  intros [-> | Hin].
  - destruct l as [|z l].
    + exists "", "". simpl. now rewrite append_nil_r.
    + exists "", (sep ++ Py.join sep (z :: l)). reflexivity.
  - destruct (IH Hin) as (a & b & E). destruct l as [|z l]; [destruct Hin |].
    exists (y ++ sep ++ a), b.
    change (Py.join sep (y :: z :: l)) with (y ++ sep ++ Py.join sep (z :: l)).
    now rewrite E, !append_assoc.
Qed.

Lemma repr_list_In (k : string) (l : list string) :
  In k l -> Py.str_in (Py.repr k) (Py.repr_list l) = true.
Proof.
  intros Hin. unfold Py.repr_list.
  destruct (join_In ", " (Py.repr k) (map Py.repr l)) as (a & b & E).
  { now apply in_map. }
  rewrite E. apply str_in_append_r.
  rewrite !append_assoc. apply str_in_append.
Qed.

End StringFacts.

(** ** The agent *)

Section AgentFacts.

Context {R : Runtime}.

Implicit Types (self : HealthGuardAgent) (w : World).

Lemma call_of_loop (fuel : nat) self (prompt : string) w
      (final : string) self' w' :
  agent_loop fuel (append_message self user ("Patient: " ++ prompt)) w
  = Some (Ok final, self', w') ->
  __call__ fuel self prompt w = Some (Ok final, self', w').
Proof. unfold __call__. now intros ->. Qed.

(** C1.  A completion that contains [Response:] ends the turn at once:
    the loop returns the text after the last occurrence of the marker,
    stripped, whether or not the completion also holds an [Action:]
    marker.  The conversation gains the assistant message only, and the
    world is the one the provider call left: no tool has run.  The same
    holds for [__call__] when the completion is the first of the turn. *)
Theorem final_response_wins (fuel : nat) self w (completion : string) w1 :
  get_response self w = (Ok completion, w1) ->
  Py.str_in "Response:" completion = true ->
  exists p,
    Py.startswith (Py.drop p completion) "Response:" = true
    /\ (forall q, p < q ->
                  Py.startswith (Py.drop q completion) "Response:" = false)
    /\ agent_loop (S fuel) self w
       = Some (Ok (Py.strip (Py.drop (p + 9) completion)),
               append_message self assistant completion, w1)
    /\ (forall self0 prompt,
           self = append_message self0 user ("Patient: " ++ prompt) ->
           __call__ (S fuel) self0 prompt w
           = Some (Ok (Py.strip (Py.drop (p + 9) completion)),
                   append_message self assistant completion, w1)).
Proof.
  intros Hresp Hin.
  destruct (split_Response_last completion Hin) as (p & Hp & Hlast & Hsplit).
  exists p. split; [exact Hp | split; [exact Hlast |]].
  assert (Hloop : agent_loop (S fuel) self w
                  = Some (Ok (Py.strip (Py.drop (p + 9) completion)),
                          append_message self assistant completion, w1)).
  { simpl. now rewrite Hresp, Hin, Hsplit. }
  split; [exact Hloop |].
  intros self0 prompt ->. now apply call_of_loop.
Qed.

Lemma call_never_raises (fuel : nat) self (prompt : string) w
      (r : PyResult string) self' w' :
  __call__ fuel self prompt w = Some (r, self', w') ->
  exists final, r = Ok final.
Proof.
  unfold __call__.
  destruct (agent_loop fuel _ w) as [[[[final | e] a] w0] |];
    intros [= <- _ _]; eauto.
Qed.

Lemma loop_failure (fuel : nat) self w (e : string) w1 :
  get_response self w = (Exc e, w1) ->
  agent_loop (S fuel) self w = Some (Exc e, self, w1).
Proof. intros H. simpl. now rewrite H. Qed.

(** C3.  [__call__] returns a text whenever it returns, and a provider
    call that raises on the first attempt of a turn yields the apology:
    the conversation is the one before the turn followed by the patient
    message, with no assistant message for the failed attempt. *)
Theorem provider_failure_apology (fuel : nat) self (prompt : string) w
        (e : string) w1 :
  get_response (append_message self user ("Patient: " ++ prompt)) w
  = (Exc e, w1) ->
  (exists self',
      __call__ (S fuel) self prompt w = Some (Ok apology, self', w1)
      /\ messages self'
         = (messages self ++ [mkMessage user ("Patient: " ++ prompt)])%list)
  /\ (forall fuel0 self0 prompt0 w0 r self' w',
         __call__ fuel0 self0 prompt0 w0 = Some (r, self', w') ->
         exists final, r = Ok final).
Proof.
  intros Hfail. split.
  - exists (append_message self user ("Patient: " ++ prompt)).
    split; [| reflexivity].
    unfold __call__. now rewrite (loop_failure fuel _ _ _ _ Hfail).
  - intros fuel0 self0 prompt0 w0 r self' w'. apply call_never_raises.
Qed.

(** One round of the loop on a malformed completion. *)
Lemma loop_malformed_step (fuel : nat) self w (completion : string) w1 :
  get_response self w = (Ok completion, w1) ->
  malformed completion = true ->
  agent_loop (S fuel) self w
  = agent_loop fuel (append_message self assistant completion) w1.
Proof.
  intros Hresp Hmal. unfold malformed in Hmal.
  apply andb_true_iff in Hmal as [H1 H2].
  apply negb_true_iff in H1. apply negb_true_iff in H2.
  simpl. now rewrite Hresp, H1, H2.
Qed.

Lemma after_malformed_shape (k : nat) self w self' w' :
  after_malformed k self w = Some (self', w') ->
  exists completions,
    List.length completions = k
    /\ Forall (fun c => malformed c = true) completions
    /\ self'
       = set_messages self
           (messages self ++ map (mkMessage assistant) completions).
Proof.
  revert self w. induction k as [|k IH]; intros self w H.
  - simpl in H. injection H as <- <-. exists [].
    repeat split; [constructor |]. simpl. rewrite app_nil_r. now destruct self.
  - simpl in H.
    destruct (get_response self w) as [[c | e] w1]; [| discriminate].
    destruct (malformed c) eqn:Hmal; [| discriminate].
    destruct (IH _ _ H) as (cs & Hlen & Hall & ->).
    exists (c :: cs). split; [simpl; now rewrite Hlen |].
    split; [now constructor |].
    unfold append_message, set_messages. simpl. now rewrite <- app_assoc.
Qed.

Lemma after_malformed_runs (k : nat) self w self' w' :
  after_malformed k self w = Some (self', w') ->
  forall fuel, agent_loop (k + fuel) self w = agent_loop fuel self' w'.
Proof.
  revert self w. induction k as [|k IH]; intros self w H n.
  - simpl in H. now injection H as <- <-.
  - simpl in H.
    destruct (get_response self w) as [[c | e] w1] eqn:Hresp; [| discriminate].
    destruct (malformed c) eqn:Hmal; [| discriminate].
    rewrite <- (IH _ _ H n).
    apply (loop_malformed_step (k + n) self w c w1 Hresp Hmal).
Qed.

(** One round of the loop on a completion that holds [Response:]. *)
Lemma loop_returns_final (fuel : nat) self w (completion : string) w1 :
  get_response self w = (Ok completion, w1) ->
  Py.str_in "Response:" completion = true ->
  exists p,
    Py.startswith (Py.drop p completion) "Response:" = true
    /\ (forall q, p < q ->
                  Py.startswith (Py.drop q completion) "Response:" = false)
    /\ agent_loop (S fuel) self w
       = Some (Ok (Py.strip (Py.drop (p + 9) completion)),
               append_message self assistant completion, w1).
Proof.
  intros Hresp Hin.
  destruct (split_Response_last completion Hin) as (p & Hp & Hlast & Hsplit).
  exists p. split; [exact Hp | split; [exact Hlast |]].
  simpl. now rewrite Hresp, Hin, Hsplit.
Qed.

Lemma last_item_snoc {A : Type} (l : list A) (x : A) :
  Py.last_item (l ++ [x]) = Some x.
Proof.
  induction l as [|y l IH]; [reflexivity |].
  simpl. destruct (l ++ [x])%list eqn:E; [| exact IH].
  destruct l; discriminate.
Qed.

Lemma last_item_None {A : Type} (l : list A) :
  Py.last_item l = None -> l = [].
Proof.
  induction l as [|y l IH]; [reflexivity |].
  simpl. destruct l; [discriminate |]. intros H. now specialize (IH H).
Qed.

Lemma loop_final (fuel : nat) self w (final : string) self' w' :
  agent_loop fuel self w = Some (Ok final, self', w') ->
  exists completion p,
    Py.last_item (messages self') = Some (mkMessage assistant completion)
    /\ Py.startswith (Py.drop p completion) "Response:" = true
    /\ (forall q, p < q ->
                  Py.startswith (Py.drop q completion) "Response:" = false)
    /\ final = Py.strip (Py.drop (p + 9) completion).
Proof.
  revert self w. induction fuel as [|fuel IH]; intros self w; [discriminate |].
  simpl. destruct (get_response self w) as [[c | e] w1]; [| discriminate].
  destruct (Py.str_in "Response:" c) eqn:Hin.
  - destruct (split_Response_last c Hin) as (p & Hp & Hlast & Hsplit).
    rewrite Hsplit. intros [= <- <- _]. exists c, p.
    split; [apply last_item_snoc | auto].
  - destruct (Py.str_in "Action:" c && Py.str_in "Action Input:" c).
    + destruct (_tool_call _ c w1) as [obs w2]. apply IH.
    + apply IH.
Qed.

Lemma loop_raised (fuel : nat) self w (e : string) self' w' :
  agent_loop fuel self w = Some (Exc e, self', w') ->
  exists w0, get_response self' w0 = (Exc e, w').
Proof.
  revert self w. induction fuel as [|fuel IH]; intros self w; [discriminate |].
  simpl. destruct (get_response self w) as [[c | e0] w1] eqn:Hresp.
  - destruct (Py.str_in "Response:" c).
    + destruct (Py.last_item (Py.split c "Response:")) eqn:Hl;
        [discriminate |].
      apply last_item_None in Hl. now apply split_nonempty in Hl.
    + destruct (Py.str_in "Action:" c && Py.str_in "Action Input:" c).
      * destruct (_tool_call _ c w1) as [obs w2]. apply IH.
      * apply IH.
  - intros [= <- <- <-]. now exists w.
Qed.

(** C2, as the code has it.  A completion with neither marker is appended
    to the conversation as an assistant message and the provider is asked
    again, with nothing else added; this repeats without any bound.
    After [k] such completions in a row the conversation is the one
    before them followed by the [k] completions as assistant messages,
    the loop has not returned, and what it does next is what the provider
    answers to that conversation: a completion that holds [Response:]
    ends the turn with its final text, a provider call that raises ends
    it with the exception.  The loop ends in no other way: whenever it
    returns, either the last message is an assistant message that holds
    [Response:], or a provider call has raised. *)
Theorem malformed_completion_retries (k : nat) self w self' w' :
  after_malformed k self w = Some (self', w') ->
  (exists completions,
      List.length completions = k
      /\ Forall (fun c => malformed c = true) completions
      /\ self'
         = set_messages self
             (messages self ++ map (mkMessage assistant) completions))
  /\ agent_loop k self w = None
  /\ (forall fuel, agent_loop (k + fuel) self w = agent_loop fuel self' w')
  /\ (forall fuel completion w1,
         get_response self' w' = (Ok completion, w1) ->
         Py.str_in "Response:" completion = true ->
         exists p,
           Py.startswith (Py.drop p completion) "Response:" = true
           /\ (forall q, p < q ->
                         Py.startswith (Py.drop q completion) "Response:"
                         = false)
           /\ agent_loop (k + S fuel) self w
              = Some (Ok (Py.strip (Py.drop (p + 9) completion)),
                      append_message self' assistant completion, w1))
  /\ (forall fuel e w1,
         get_response self' w' = (Exc e, w1) ->
         agent_loop (k + S fuel) self w = Some (Exc e, self', w1))
  /\ (forall fuel r self'' w'',
         agent_loop fuel self w = Some (r, self'', w'') ->
         (exists final completion,
             r = Ok final
             /\ Py.last_item (messages self'')
                = Some (mkMessage assistant completion)
             /\ Py.str_in "Response:" completion = true)
         \/ (exists e w0,
                r = Exc e /\ get_response self'' w0 = (Exc e, w''))).
Proof.
  intros H. pose proof (after_malformed_runs _ _ _ _ _ H) as Hrun.
  split; [exact (after_malformed_shape _ _ _ _ _ H) |].
  split; [specialize (Hrun 0); now rewrite Nat.add_0_r in Hrun |].
  split; [exact Hrun |].
  split; [| split].
  - intros fuel c w1 Hresp Hin. rewrite Hrun.
    exact (loop_returns_final fuel self' w' c w1 Hresp Hin).
  - intros fuel e w1 Hresp. rewrite Hrun. now apply loop_failure.
  - intros fuel [final | e] self'' w'' Hret.
    + left. destruct (loop_final _ _ _ _ _ _ Hret) as (c & p & Hl & Hp & _ & _).
      exists final, c. repeat split; auto. exact (str_in_drop _ _ _ Hp).
    + right. destruct (loop_raised _ _ _ _ _ _ Hret) as [w0 Hw0].
      now exists e, w0.
Qed.

(** The dispatcher on an action that selects no tool. *)
Lemma tool_call_not_found self (text : string) w :
  selected_tool self (fst (_parse_action_string text)) = None ->
  _tool_call self text w
  = (tool_not_found self (fst (_parse_action_string text)), w).
Proof.
  unfold _tool_call. destruct (_parse_action_string text) as [act inp].
  simpl. now intros ->.
Qed.

(** One round of the loop on a tool step. *)
Lemma loop_tool_step (fuel : nat) self w (completion : string) w1 :
  get_response self w = (Ok completion, w1) ->
  Py.str_in "Response:" completion = false ->
  Py.str_in "Action:" completion = true ->
  Py.str_in "Action Input:" completion = true ->
  agent_loop (S fuel) self w
  = agent_loop fuel
      (append_message (append_message self assistant completion) user
         (fst (_tool_call (append_message self assistant completion)
                 completion w1)))
      (snd (_tool_call (append_message self assistant completion)
              completion w1)).
Proof.
  intros Hresp H1 H2 H3. simpl. rewrite Hresp, H1, H2, H3. simpl.
  now destruct (_tool_call _ completion w1).
Qed.

(** What the loop does on a tool step whose Observation is [obs]: the
    completion and the Observation are appended, and the provider is
    asked again with that conversation. *)
Lemma tool_step_continues (fuel : nat) self0 w0 (text obs : string) w w' :
  get_response self0 w0 = (Ok text, w) ->
  Py.str_in "Response:" text = false ->
  Py.str_in "Action:" text = true ->
  Py.str_in "Action Input:" text = true ->
  _tool_call (append_message self0 assistant text) text w = (obs, w') ->
  let self2 :=
    append_message (append_message self0 assistant text) user obs in
  messages self2
  = (messages self0 ++ [mkMessage assistant text; mkMessage user obs])%list
  /\ agent_loop (S fuel) self0 w0 = agent_loop fuel self2 w'
  /\ (forall completion w2,
         get_response self2 w' = (Ok completion, w2) ->
         Py.str_in "Response:" completion = true ->
         exists p,
           Py.startswith (Py.drop p completion) "Response:" = true
           /\ (forall q, p < q ->
                         Py.startswith (Py.drop q completion) "Response:"
                         = false)
           /\ agent_loop (S (S fuel)) self0 w0
              = Some (Ok (Py.strip (Py.drop (p + 9) completion)),
                      append_message self2 assistant completion, w2))
  /\ (forall e w2,
         get_response self2 w' = (Exc e, w2) ->
         agent_loop (S (S fuel)) self0 w0 = Some (Exc e, self2, w2)).
Proof.
  intros Hresp H1 H2 H3 Hcall self2.
  assert (Hstep : forall n, agent_loop (S n) self0 w0 = agent_loop n self2 w').
  { intros n. rewrite (loop_tool_step n self0 w0 text w Hresp H1 H2 H3).
    now rewrite Hcall. }
  split; [| split; [apply Hstep | split]].
  - unfold self2, append_message. cbn [messages]. now rewrite <- app_assoc.
  - intros c w2 Hc Hin. rewrite Hstep.
    exact (loop_returns_final fuel self2 w' c w2 Hc Hin).
  - intros e w2 He. rewrite Hstep. now apply loop_failure.
Qed.

(** C6.  When the parsed action is absent, or names no registered tool
    once stripped and lower-cased, the dispatcher returns the not-found
    Observation, which ends with the list of the registered names, and
    leaves the world as it was.  In the loop the conversation then holds
    the completion as an assistant message followed by that Observation
    as a user message, and the provider is asked again with it: the turn
    goes on, to the final text of the next completion when it holds
    [Response:], and it fails only if the provider then raises. *)
Theorem unknown_tool_observation self (text : string) w
        (act : option string) (inp : ActionInput JSON) :
  _parse_action_string text = (act, inp) ->
  (act = None
   \/ exists a, act = Some a
        /\ Py.dict_get (Py.lower (Py.strip a)) (tools self) = None) ->
  let observation :=
    "Observation: Tool '" ++ format_action act
    ++ "' not found. Available tools: "
    ++ Py.repr_list (Py.keys (tools self)) in
  _tool_call self text w = (observation, w)
  /\ Py.str_in "not found" observation = true
  /\ (forall k, In k (Py.keys (tools self)) ->
                Py.str_in (Py.repr k) observation = true)
  /\ (forall fuel self0 w0,
         self = append_message self0 assistant text ->
         get_response self0 w0 = (Ok text, w) ->
         Py.str_in "Response:" text = false ->
         Py.str_in "Action:" text = true ->
         Py.str_in "Action Input:" text = true ->
         let self2 := append_message self user observation in
         messages self2
         = (messages self0
            ++ [mkMessage assistant text; mkMessage user observation])%list
         /\ agent_loop (S fuel) self0 w0 = agent_loop fuel self2 w
         /\ (forall completion w2,
                get_response self2 w = (Ok completion, w2) ->
                Py.str_in "Response:" completion = true ->
                exists p,
                  Py.startswith (Py.drop p completion) "Response:" = true
                  /\ (forall q, p < q ->
                                Py.startswith (Py.drop q completion)
                                  "Response:" = false)
                  /\ agent_loop (S (S fuel)) self0 w0
                     = Some (Ok (Py.strip (Py.drop (p + 9) completion)),
                             append_message self2 assistant completion, w2))
         /\ (forall e w2,
                get_response self2 w = (Exc e, w2) ->
                agent_loop (S (S fuel)) self0 w0 = Some (Exc e, self2, w2))).
Proof.
  intros Hparse Hmiss observation.
  assert (Hsel : selected_tool self (fst (_parse_action_string text)) = None).
  { rewrite Hparse. simpl. destruct Hmiss as [-> | (a & -> & Hget)].
    - reflexivity.
    - simpl. rewrite Hget. now destruct (Py.truthy a). }
  assert (Hcall : _tool_call self text w = (observation, w)).
  { rewrite (tool_call_not_found _ _ _ Hsel), Hparse. reflexivity. }
  split; [exact Hcall | split; [| split]].
  - unfold observation. apply str_in_append_r, str_in_append_r. reflexivity.
  - intros k Hin. unfold observation.
    do 3 apply str_in_append_r. now apply repr_list_In.
  - intros fuel self0 w0 Hself Hresp H1 H2 H3. subst self.
    exact (tool_step_continues fuel self0 w0 text observation w w
             Hresp H1 H2 H3 Hcall).
Qed.

(** The loop only appends to the conversation. *)
Lemma loop_appends (fuel : nat) self w (r : PyResult string) self' w' :
  agent_loop fuel self w = Some (r, self', w') ->
  exists more, messages self' = (messages self ++ more)%list.
Proof.
  revert self w. induction fuel as [|fuel IH]; intros self w; [discriminate |].
  simpl. destruct (get_response self w) as [[c | e] w1].
  - destruct (Py.str_in "Response:" c).
    + destruct (Py.last_item _); intros [= _ <- _];
        exists [mkMessage assistant c]; reflexivity.
    + destruct (Py.str_in "Action:" c && Py.str_in "Action Input:" c).
      * destruct (_tool_call _ c w1) as [obs w2]. intros H.
        destruct (IH _ _ H) as [more E]. rewrite E. simpl.
        exists ([mkMessage assistant c; mkMessage user obs] ++ more)%list.
        now rewrite <- !app_assoc.
      * intros H. destruct (IH _ _ H) as [more E]. rewrite E. simpl.
        exists ([mkMessage assistant c] ++ more)%list.
        now rewrite <- !app_assoc.
  - intros [= _ <- _]. exists []. now rewrite app_nil_r.
Qed.

Lemma call_appends (fuel : nat) self (prompt : string) w
      (r : PyResult string) self' w' :
  __call__ fuel self prompt w = Some (r, self', w') ->
  exists more, messages self' = (messages self ++ more)%list.
Proof.
  unfold __call__.
  destruct (agent_loop fuel _ w) as [[[r0 a] w0] |] eqn:E; [| discriminate].
  destruct (loop_appends _ _ _ _ _ _ E) as [more Hm].
  unfold append_message in Hm at 1. cbn [messages] in Hm.
  intros Hret.
  assert (a = self') as <- by (destruct r0; now injection Hret).
  exists ([mkMessage user ("Patient: " ++ prompt)] ++ more)%list.
  now rewrite app_assoc, <- Hm.
Qed.

Lemma run_call_keeps_first (c : AgentCall) self w self' w'
      (first : Message) (rest : list Message) :
  messages self = first :: rest ->
  run_call c self w = Some (self', w') ->
  exists rest', messages self' = first :: rest'.
Proof.
  intros Hm. destruct c as [fuel prompt | |]; simpl.
  - destruct (__call__ fuel self prompt w) as [[[r a] w0] |] eqn:E;
      [| discriminate].
    intros [= <- _]. destruct (call_appends _ _ _ _ _ _ _ E) as [more E'].
    rewrite E', Hm. now exists (rest ++ more)%list.
  - intros [= <- _]. now exists rest.
  - intros [= <- _]. unfold clear_conversation. rewrite Hm. now exists [].
Qed.

Lemma run_calls_keep_first (cs : list AgentCall) self w self' w'
      (first : Message) (rest : list Message) :
  messages self = first :: rest ->
  run_calls cs self w = Some (self', w') ->
  exists rest', messages self' = first :: rest'.
Proof.
  revert self w rest. induction cs as [|c cs IH]; intros self w rest Hm; simpl.
  - intros [= <- _]. now exists rest.
  - destruct (run_call c self w) as [[a w0] |] eqn:E; [| discriminate].
    destruct (run_call_keeps_first _ _ _ _ _ _ _ Hm E) as [rest' Hm'].
    now apply IH with (rest := rest').
Qed.

(** C8.  The constructor leaves one message in the conversation, of role
    [system]; after any calls of [__call__], [get_conversation_history]
    and [clear_conversation] that message is still the first one;
    [get_conversation_history] hands out the conversation as it is, and
    [clear_conversation] returns its confirmation and leaves the system
    message alone in the conversation. *)
Theorem system_message_first (env : Environ) (ts : list HealthTool)
        (system_prompt pid : option string) (agent : HealthGuardAgent) :
  __init__ env ts system_prompt pid = Ok agent ->
  exists first,
    role first = system
    /\ messages agent = [first]
    /\ forall cs w self' w',
        run_calls cs agent w = Some (self', w') ->
        (exists rest, messages self' = first :: rest)
        /\ List.hd_error (get_conversation_history self') = Some first
        /\ clear_conversation self'
           = (Ok "Conversation history cleared.", set_messages self' [first])
        /\ messages (snd (clear_conversation self')) = [first].
Proof.
  unfold __init__. intros Hinit.
  assert (Hone : exists first, messages agent = [first] /\ role first = system).
  { destruct (env_set (GOOGLE_API_KEY env));
      [| destruct (env_set (OPENAI_API_KEY env)); [| discriminate]];
      injection Hinit as <-; eexists; split; reflexivity. }
  destruct Hone as (first & Hm & Hrole).
  exists first. split; [exact Hrole | split; [exact Hm |]].
  intros cs w self' w' Hrun.
  destruct (run_calls_keep_first _ _ _ _ _ _ _ Hm Hrun) as [rest Hm'].
  unfold get_conversation_history, clear_conversation. rewrite Hm'.
  repeat split; eauto.
Qed.

End AgentFacts.

(** ** The action parser *)

Section ParserFacts.

Context {R : Runtime}.

Implicit Types (st : ParseState) (line : string) (lines : list string).

#[local] Arguments Py.startswith : simpl never.
#[local] Arguments Py.strip : simpl never.
#[local] Arguments Py.replace : simpl never.

Lemma input_line_not_action line :
  Py.startswith line "Action Input:" = true ->
  Py.startswith line "Action:" = false.
Proof. intros H. apply startswith_inv in H as [r ->]. reflexivity. Qed.

Lemma observation_line_not_action line :
  Py.startswith line "Observation:" = true ->
  Py.startswith line "Action:" = false
  /\ Py.startswith line "Action Input:" = false.
Proof. intros H. apply startswith_inv in H as [r ->]. now split. Qed.

Lemma parse_line_action st line :
  Py.startswith line "Action:" = true ->
  parse_line st line
  = mkParse (Some (Py.strip (Py.replace line "Action:" "")))
            (action_input st) (is_action_input st).
Proof. intros H. unfold parse_line. now rewrite H. Qed.

Lemma parse_line_input st line :
  Py.startswith line "Action Input:" = true ->
  parse_line st line
  = mkParse (action st) (action_input st ++ input_of line) true.
Proof.
  intros H. unfold parse_line, input_of.
  rewrite (input_line_not_action _ H), H.
  destruct (Py.truthy _); [reflexivity | now rewrite app_nil_r].
Qed.

Lemma parse_line_observation st line :
  Py.startswith line "Observation:" = true ->
  parse_line st line = mkParse (action st) (action_input st) false.
Proof.
  intros H. unfold parse_line.
  destruct (observation_line_not_action _ H) as [-> ->]. now rewrite H.
Qed.

Lemma parse_line_plain st line :
  plain_line line = true ->
  parse_line st line
  = if is_action_input st && Py.truthy (Py.strip line)
    then mkParse (action st) (action_input st ++ [Py.strip line])
                 (is_action_input st)
    else st.
Proof.
  unfold plain_line, parse_line. intros H.
  apply andb_true_iff in H as [H H3]. apply andb_true_iff in H as [H1 H2].
  apply negb_true_iff in H1, H2, H3. now rewrite H1, H2, H3.
Qed.

Lemma parse_lines_cons st line lines :
  parse_lines st (line :: lines) = parse_lines (parse_line st line) lines.
Proof. reflexivity. Qed.

Lemma parse_lines_nil st : parse_lines st [] = st.
Proof. reflexivity. Qed.

Lemma parse_lines_app st (a b : list string) :
  parse_lines st (a ++ b) = parse_lines (parse_lines st a) b.
Proof. apply fold_left_app. Qed.

Lemma parse_line_keeps_action st line :
  Py.startswith line "Action:" = false ->
  action (parse_line st line) = action st.
Proof.
  intros H. unfold parse_line. rewrite H.
  destruct (Py.startswith line "Action Input:"); [reflexivity |].
  destruct (Py.startswith line "Observation:"); [reflexivity |].
  now destruct (is_action_input st && Py.truthy (Py.strip line)).
Qed.

Lemma parse_lines_keep_action st lines :
  Forall (fun x => Py.startswith x "Action:" = false) lines ->
  action (parse_lines st lines) = action st.
Proof.
  intros H. revert st. induction H as [|x l Hx _ IH]; intros st.
  - reflexivity.
  - rewrite parse_lines_cons, IH. now apply parse_line_keeps_action.
Qed.

(** After the scan, [action] is what the last [Action:] line gives. *)
Lemma last_action_wins st (pre post : list string) line :
  Py.startswith line "Action:" = true ->
  Forall (fun x => Py.startswith x "Action:" = false) post ->
  action (parse_lines st (pre ++ line :: post))
  = Some (Py.strip (Py.replace line "Action:" "")).
Proof.
  intros Hl Hpost. rewrite parse_lines_app, parse_lines_cons.
  rewrite (parse_lines_keep_action _ _ Hpost).
  now rewrite (parse_line_action _ _ Hl).
Qed.

(** A line adds to [action_input] and sets the flag without regard to what
    the list and [action] hold. *)
Lemma parse_line_frame st line :
  action_input (parse_line st line)
  = (action_input st
     ++ action_input (parse_line (mkParse None [] (is_action_input st)) line))%list
  /\ is_action_input (parse_line st line)
     = is_action_input (parse_line (mkParse None [] (is_action_input st)) line).
Proof.
  destruct st as [act inp flag]. unfold parse_line. simpl.
  destruct (Py.startswith line "Action:"); simpl;
    [now rewrite app_nil_r |].
  destruct (Py.startswith line "Action Input:"); simpl.
  { destruct (Py.truthy _); [now split | now rewrite app_nil_r]. }
  destruct (Py.startswith line "Observation:"); simpl;
    [now rewrite app_nil_r |].
  destruct flag; simpl; [| now rewrite app_nil_r].
  destruct (Py.truthy _); simpl; [now split | now rewrite app_nil_r].
Qed.

Lemma parse_lines_frame st lines :
  action_input (parse_lines st lines)
  = (action_input st ++ collected (is_action_input st) lines)%list
  /\ is_action_input (parse_lines st lines)
     = is_action_input (parse_lines (mkParse None [] (is_action_input st)) lines).
Proof.
  unfold collected. revert st.
  induction lines as [|x l IH]; intros st.
  - rewrite !parse_lines_nil. simpl. now rewrite app_nil_r.
  - rewrite !parse_lines_cons.
    destruct (parse_line_frame st x) as [Hi Hf].
    destruct (IH (parse_line st x)) as [IHi IHf].
    destruct (IH (parse_line (mkParse None [] (is_action_input st)) x))
      as [IHi' IHf'].
    rewrite IHi, IHf, IHi', IHf', Hi, Hf. now rewrite <- app_assoc.
Qed.

Lemma collected_app (flag : bool) (a b : list string) :
  collected flag (a ++ b)
  = (collected flag a
     ++ collected (is_action_input (parse_lines (mkParse None [] flag) a)) b)%list.
Proof.
  unfold collected at 1. rewrite parse_lines_app.
  now rewrite (proj1 (parse_lines_frame _ b)).
Qed.

Lemma collected_input_line (flag : bool) line lines :
  Py.startswith line "Action Input:" = true ->
  collected flag (line :: lines) = (input_of line ++ collected true lines)%list.
Proof.
  intros H. unfold collected at 1. rewrite parse_lines_cons.
  rewrite (proj1 (parse_lines_frame _ lines)).
  now rewrite (parse_line_input _ _ H).
Qed.

(** Plain lines read while accumulating: the ones that are not blank are
    appended stripped, and accumulation goes on. *)
Lemma parse_plain_lines st lines :
  is_action_input st = true ->
  forallb plain_line lines = true ->
  parse_lines st lines
  = mkParse (action st)
      (action_input st
       ++ map Py.strip (filter (fun x => Py.truthy (Py.strip x)) lines))
      true.
Proof.
  revert st. induction lines as [|x l IH]; intros st Hflag Hplain.
  - simpl. rewrite app_nil_r. destruct st; simpl in *; now subst.
  - simpl in Hplain. apply andb_true_iff in Hplain as [Hx Hl].
    rewrite parse_lines_cons.
    rewrite (parse_line_plain _ _ Hx), Hflag. simpl.
    destruct (Py.truthy (Py.strip x)) eqn:E.
    + rewrite IH by (simpl; auto). simpl. now rewrite <- app_assoc.
    + now rewrite IH.
Qed.

(** Lines read while accumulating, none of which begins with
    [Observation:]: each adds what [continuation_of] says, and
    accumulation goes on, also across an [Action:] line. *)
Lemma parse_open_lines st lines :
  is_action_input st = true ->
  Forall (fun x => Py.startswith x "Observation:" = false) lines ->
  action_input (parse_lines st lines)
  = (action_input st ++ flat_map continuation_of lines)%list
  /\ is_action_input (parse_lines st lines) = true.
Proof.
  intros Hflag H. revert st Hflag.
  induction H as [|x l Hx _ IH]; intros st Hflag.
  - rewrite parse_lines_nil. simpl. now rewrite app_nil_r.
  - rewrite parse_lines_cons. cbn [flat_map].
    assert (Hline : action_input (parse_line st x)
                    = (action_input st ++ continuation_of x)%list
                    /\ is_action_input (parse_line st x) = true).
    { unfold continuation_of.
      destruct (Py.startswith x "Action:") eqn:E1.
      - rewrite (parse_line_action _ _ E1). cbn [action_input is_action_input].
        now rewrite app_nil_r.
      - destruct (Py.startswith x "Action Input:") eqn:E2.
        + rewrite (parse_line_input _ _ E2). now split.
        + unfold parse_line. rewrite E1, E2, Hx, Hflag. cbn [andb].
          destruct (Py.truthy (Py.strip x)); cbn [action_input is_action_input];
            [now split | now rewrite app_nil_r]. }
    destruct Hline as [Hi Hf]. destruct (IH _ Hf) as [IHi IHf].
    rewrite IHi, Hi, IHf. now rewrite <- app_assoc.
Qed.

Lemma continuation_of_plain (lines : list string) :
  forallb plain_line lines = true ->
  flat_map continuation_of lines
  = map Py.strip (filter (fun x => Py.truthy (Py.strip x)) lines).
Proof.
  induction lines as [|x l IH]; intros H; [reflexivity |].
  simpl in H. apply andb_true_iff in H as [Hx Hl].
  cbn [flat_map filter]. rewrite (IH Hl).
  unfold plain_line in Hx.
  apply andb_true_iff in Hx as [Hx _]. apply andb_true_iff in Hx as [H1 H2].
  apply negb_true_iff in H1, H2.
  unfold continuation_of. rewrite H1, H2.
  now destruct (Py.truthy (Py.strip x)).
Qed.

(** C7, as the code has it.  Between an [Action Input:] line and the next
    line that begins with [Observation:], every line that begins with no
    marker and is not blank is appended to the argument with its
    surrounding whitespace stripped, in the order of the lines, also
    when it follows an [Action:] line or a further [Action Input:] line;
    blank lines add nothing, an [Action:] line adds nothing and a further
    [Action Input:] line adds its own stripped text.  The [Observation:]
    line ends the accumulation, and the accumulated pieces are joined by
    newlines into the text that is decoded. *)
Theorem continuation_lines_stripped (text : string)
        (pre mid post : list string) (line obs : string) :
  Py.split text Py.nl = (pre ++ line :: mid ++ obs :: post)%list ->
  Py.startswith line "Action Input:" = true ->
  Forall (fun x => Py.startswith x "Observation:" = false) mid ->
  Py.startswith obs "Observation:" = true ->
  let pieces :=
    (collected false pre ++ input_of line ++ flat_map continuation_of mid
     ++ collected false post)%list in
  action_input (parse_lines parse_start (Py.split text Py.nl)) = pieces
  /\ snd (_parse_action_string text) = decode_input (Py.join Py.nl pieces)
  /\ (forall x, In x mid -> plain_line x = true -> Py.strip x <> "" ->
                In (Py.strip x) (flat_map continuation_of mid))
  /\ (forallb plain_line mid = true ->
      flat_map continuation_of mid
      = map Py.strip (filter (fun x => Py.truthy (Py.strip x)) mid)).
Proof.
  intros Hsplit Hl Hmid Hobs pieces.
  assert (E : action_input (parse_lines parse_start (Py.split text Py.nl))
              = pieces).
  { rewrite Hsplit. unfold pieces.
    rewrite (proj1 (parse_lines_frame _ _)). cbn [action_input app
      is_action_input parse_start].
    rewrite collected_app. f_equal.
    rewrite (collected_input_line _ _ _ Hl). f_equal.
    rewrite collected_app.
    destruct (parse_open_lines (mkParse None [] true) mid eq_refl Hmid)
      as [Hi Hf].
    unfold collected at 1. rewrite Hi. cbn [action_input app]. f_equal.
    rewrite Hf. unfold collected at 1. rewrite parse_lines_cons.
    rewrite (parse_line_observation _ _ Hobs).
    now rewrite (proj1 (parse_lines_frame _ post)). }
  split; [exact E | split; [| split]].
  - unfold _parse_action_string. simpl. now rewrite E.
  - intros x Hin Hplain Hne. apply in_flat_map. exists x. split; [exact Hin |].
    unfold plain_line in Hplain.
    apply andb_true_iff in Hplain as [Hp _].
    apply andb_true_iff in Hp as [H1 H2]. apply negb_true_iff in H1, H2.
    unfold continuation_of. rewrite H1, H2.
    destruct (Py.strip x); [congruence | now left].
  - apply continuation_of_plain.
Qed.

(** C9.  Each [Action Input:] line adds its own text to the argument and
    none resets it: with two such lines, the argument holds what the
    first one and the lines after it gave, then what the second one and
    the lines after it gave, in that order, and the whole is joined by
    newlines into the one text that is decoded.  An [Action:] line, for
    its part, replaces the action: the last one is the one kept. *)
Theorem action_input_lines_accumulate (text : string)
        (pre mid post : list string) (line1 line2 : string) :
  Py.split text Py.nl = (pre ++ line1 :: mid ++ line2 :: post)%list ->
  Py.startswith line1 "Action Input:" = true ->
  Py.startswith line2 "Action Input:" = true ->
  let pieces :=
    (collected false pre ++ input_of line1 ++ collected true mid
     ++ input_of line2 ++ collected true post)%list in
  action_input (parse_lines parse_start (Py.split text Py.nl)) = pieces
  /\ snd (_parse_action_string text) = decode_input (Py.join Py.nl pieces)
  /\ (forall st before after line,
         Py.startswith line "Action:" = true ->
         Forall (fun x => Py.startswith x "Action:" = false) after ->
         action (parse_lines st (before ++ line :: after))
         = Some (Py.strip (Py.replace line "Action:" ""))).
Proof.
  intros Hsplit H1 H2 pieces.
  assert (E : action_input (parse_lines parse_start (Py.split text Py.nl))
              = pieces).
  { rewrite Hsplit. unfold pieces.
    rewrite (proj1 (parse_lines_frame _ _)). simpl.
    rewrite collected_app. f_equal.
    rewrite (collected_input_line _ _ _ H1). f_equal.
    rewrite collected_app. f_equal.
    now rewrite (collected_input_line _ _ _ H2). }
  split; [exact E | split].
  - unfold _parse_action_string. simpl. now rewrite E.
  - intros st before after line. apply last_action_wins.
Qed.

End ParserFacts.

(** ** More on strings: stripping, case and single characters *)

Section StripFacts.

Lemma rstrip_idempotent (s : string) : Py.rstrip (Py.rstrip s) = Py.rstrip s.
Proof.
  induction s as [|c s IH]; [reflexivity |].
  simpl. destruct (Py.rstrip s) as [|d r] eqn:E.
  - destruct (Py.isspace c) eqn:Hc; [reflexivity |].
    simpl. now rewrite Hc.
  - change (Py.rstrip (String c (String d r)))
      with (match Py.rstrip (String d r) with
            | "" => if Py.isspace c then "" else String c ""
            | x => String c x
            end).
    now rewrite IH.
Qed.

Lemma lstrip_head (s : string) :
  Py.lstrip s = ""
  \/ exists c r, Py.lstrip s = String c r /\ Py.isspace c = false.
Proof.
  induction s as [|c s IH]; [now left |].
  simpl. destruct (Py.isspace c) eqn:Hc; [exact IH |].
  right. now exists c, s.
Qed.

Lemma rstrip_head (c : ascii) (s : string) :
  Py.isspace c = false -> exists r, Py.rstrip (String c s) = String c r.
Proof.
  intros Hc. simpl. destruct (Py.rstrip s); [rewrite Hc |]; eauto.
Qed.

Lemma strip_idempotent (s : string) : Py.strip (Py.strip s) = Py.strip s.
Proof.
  unfold Py.strip.
  assert (H : Py.lstrip (Py.rstrip (Py.lstrip s)) = Py.rstrip (Py.lstrip s)).
  { destruct (lstrip_head s) as [-> | (c & r & -> & Hc)]; [reflexivity |].
    destruct (rstrip_head c r Hc) as [r' ->]. simpl. now rewrite Hc. }
  rewrite H. apply rstrip_idempotent.
Qed.

Lemma str_in_char (c b : ascii) (s : string) :
  Py.str_in (String c "") (String b s)
  = Ascii.eqb c b || Py.str_in (String c "") s.
Proof. simpl. now rewrite andb_true_r. Qed.

Lemma str_in_char_append (c : ascii) (a b : string) :
  Py.str_in (String c "") (a ++ b)
  = Py.str_in (String c "") a || Py.str_in (String c "") b.
Proof.
  induction a as [|x a IH].
  - reflexivity.
  - change (String x a ++ b) with (String x (a ++ b)).
    now rewrite !str_in_char, IH, orb_assoc.
Qed.

Lemma lower_char_space (c : ascii) :
  Ascii.eqb " " (Py.lower_char c) = Ascii.eqb " " c.
Proof. destruct c as [[] [] [] [] [] [] [] []]; reflexivity. Qed.

Lemma lower_keeps_spaces (s : string) :
  Py.str_in " " (Py.lower s) = Py.str_in " " s.
Proof.
  induction s as [|c s IH]; [reflexivity |].
  change (Py.lower (String c s)) with (String (Py.lower_char c) (Py.lower s)).
  now rewrite !str_in_char, IH, lower_char_space.
Qed.

Lemma find_char_first (c : ascii) (s : string) (i : nat) :
  Py.find s (String c "") = Some i ->
  Py.str_in (String c "") (Py.take i s) = false.
Proof.
  revert i. induction s as [|b s IH]; intros i; [discriminate |].
  simpl. rewrite andb_true_r. destruct (Ascii.eqb c b) eqn:E.
  - now intros [= <-].
  - destruct (Py.find s (String c "")) as [j|]; [| discriminate].
    intros [= <-].
    change (Py.take (S j) (String b s)) with (String b (Py.take j s)).
    rewrite str_in_char, E. now apply IH.
Qed.

(** [s.replace(" ", "_")] holds no space. *)
Lemma replace_spaces (s : string) : Py.str_in " " (Py.replace s " " "_") = false.
Proof.
  unfold Py.replace.
  assert (H : forall n x, String.length x <= n ->
                          Py.str_in " " (Py.replace_from n x " " "_") = false).
  { induction n as [|n IH]; intros x Hlen.
    - destruct x; [reflexivity | simpl in Hlen; lia].
    - cbn [Py.replace_from]. destruct (Py.find x " ") as [i|] eqn:F.
      + rewrite !str_in_char_append, (find_char_first _ _ _ F).
        rewrite IH; [reflexivity |].
        rewrite length_drop. simpl. lia.
      + now apply find_None. }
  now apply H.
Qed.

End StripFacts.

(** ** The registry and the dispatcher *)

Section DispatchFacts.

Context {R : Runtime}.

Implicit Types (self : HealthGuardAgent) (w : World) (tool : HealthTool).

Lemma dict_get_set {V : Type} (n k : string) (v : V) (d : Py.dict V) :
  Py.dict_get n (Py.dict_set k v d)
  = if String.eqb k n then Some v else Py.dict_get n d.
Proof.
  induction d as [|[k' v'] d IH]; simpl.
  - reflexivity.
  - destruct (String.eqb k' k) eqn:E; simpl.
    + apply String.eqb_eq in E. subst k'.
      now destruct (String.eqb k n).
    + rewrite IH. destruct (String.eqb k' n) eqn:E'; [| reflexivity].
      apply String.eqb_eq in E'. subst k'.
      rewrite String.eqb_sym in E. now rewrite E.
Qed.

Lemma find_snoc {A : Type} (p : A -> bool) (l : list A) (x : A) :
  List.find p (l ++ [x])
  = match List.find p l with
    | Some y => Some y
    | None => if p x then Some x else None
    end.
Proof.
  induction l as [|y l IH]; simpl; [reflexivity |].
  now destruct (p y).
Qed.

Lemma dict_of_lookup (n : string) (ts : list HealthTool)
      (d : Py.dict HealthTool) :
  Py.dict_get n
    (fold_left (fun d kv => Py.dict_set (fst kv) (snd kv) d)
               (combine (map name ts) ts) d)
  = match List.find (fun t => String.eqb (name t) n) (rev ts) with
    | Some t => Some t
    | None => Py.dict_get n d
    end.
Proof.
  revert d. induction ts as [|t ts IH]; intros d; simpl; [reflexivity |].
  rewrite IH, find_snoc, dict_get_set.
  destruct (List.find _ (rev ts)); [reflexivity |].
  now destruct (String.eqb (name t) n).
Qed.

(** Under each name the registry holds the last tool of the list that
    bears it. *)
Lemma format_tools_lookup (n : string) (ts : list HealthTool) :
  Py.dict_get n (_format_tools ts)
  = List.find (fun t => String.eqb (name t) n) (rev ts).
Proof.
  unfold _format_tools, Py.dict_of. rewrite dict_of_lookup.
  now destruct (List.find _ (rev ts)).
Qed.

Lemma format_tools_member (n : string) (ts : list HealthTool) tool :
  Py.dict_get n (_format_tools ts) = Some tool ->
  In tool ts /\ name tool = n.
Proof.
  rewrite format_tools_lookup. intros H.
  apply List.find_some in H as [Hin Hn].
  split; [now apply in_rev | now apply String.eqb_eq].
Qed.

Lemma dict_set_keys {V : Type} (k : string) (v : V) (d : Py.dict V) :
  Py.keys (Py.dict_set k v d) = Py.keys d
  \/ (~ In k (Py.keys d) /\ Py.keys (Py.dict_set k v d) = (Py.keys d ++ [k])%list).
Proof.
  induction d as [|[k' v'] d IH]; simpl.
  - right. split; [tauto | reflexivity].
  - destruct (String.eqb k' k) eqn:E; simpl; [now left |].
    destruct IH as [IH | [Hn IH]]; unfold Py.keys in *; rewrite IH.
    + now left.
    + right. split; [| reflexivity].
      intros [-> | H]; [| tauto]. now rewrite String.eqb_refl in E.
Qed.

Lemma dict_set_NoDup {V : Type} (k : string) (v : V) (d : Py.dict V) :
  NoDup (Py.keys d) -> NoDup (Py.keys (Py.dict_set k v d)).
Proof.
  intros H. destruct (dict_set_keys k v d) as [-> | [Hn ->]]; [exact H |].
  apply NoDup_app; [exact H | repeat constructor; tauto |].
  intros x Hx [<- | []]. tauto.
Qed.

Lemma format_tools_NoDup (ts : list HealthTool) :
  NoDup (Py.keys (_format_tools ts)).
Proof.
  unfold _format_tools, Py.dict_of.
  assert (H : forall (pairs : list (string * HealthTool)) d,
             NoDup (Py.keys d) ->
             NoDup (Py.keys (fold_left
                      (fun d kv => Py.dict_set (fst kv) (snd kv) d) pairs d))).
  { induction pairs as [|p pairs IH]; intros d Hd; simpl; [exact Hd |].
    apply IH. now apply dict_set_NoDup. }
  apply H. constructor.
Qed.

(** C4, as the code has it.  The constructor does not look for tools of
    the same name: with an API key in the environment it succeeds on
    every list of tools, and its registry has one entry for each name,
    which holds the last tool of the list that bears the name. *)
Theorem duplicate_names_keep_last (env : Environ) (ts : list HealthTool)
        (system_prompt pid : option string) :
  env_set (GOOGLE_API_KEY env) || env_set (OPENAI_API_KEY env) = true ->
  exists agent,
    __init__ env ts system_prompt pid = Ok agent
    /\ NoDup (Py.keys (tools agent))
    /\ forall n,
        Py.dict_get n (tools agent)
        = List.find (fun t => String.eqb (name t) n) (rev ts).
Proof.
  intros Henv. unfold __init__.
  destruct (env_set (GOOGLE_API_KEY env));
    [| destruct (env_set (OPENAI_API_KEY env)); [| discriminate]];
    eexists; (split; [reflexivity |]); simpl;
    (split; [apply format_tools_NoDup | intros n; apply format_tools_lookup]).
Qed.

(** The dispatcher on an action that selects a tool. *)
Lemma tool_call_selected self (text : string) w tool :
  selected_tool self (fst (_parse_action_string text)) = Some tool ->
  _tool_call self text w
  = match run tool (snd (_parse_action_string text)) w with
    | (Ok out, w') => ("Observation: " ++ out, w')
    | (Exc e, w') =>
        ("Observation: There was an error executing the tool." ++ Py.nl
         ++ "Error: " ++ e, w')
    end.
Proof.
  unfold _tool_call. destruct (_parse_action_string text) as [act inp].
  simpl. now intros ->.
Qed.

Lemma parsed_action (text : string) (pre post : list string) (line : string) :
  Py.split text Py.nl = (pre ++ line :: post)%list ->
  Py.startswith line "Action:" = true ->
  Forall (fun x => Py.startswith x "Action:" = false) post ->
  fst (_parse_action_string text)
  = Some (Py.strip (Py.replace line "Action:" "")).
Proof.
  intros Hs Hl Hp. unfold _parse_action_string. simpl.
  rewrite Hs. now apply last_action_wins.
Qed.

(** C5, as the code has it.  When the last [Action:] line of a completion
    gives, once the marker is removed and the rest stripped, a name that
    is not empty and that, lower-cased, is a registered name, the
    dispatcher runs that tool.  The argument is the accumulated
    [Action Input] text decoded by [json.loads] when it decodes, and the
    text itself otherwise; when nothing was accumulated and [json.loads]
    rejects the empty text, the argument is the empty string.  The
    Observation is the tool's answer, or its error when it raised. *)
Theorem known_tool_dispatch self (text : string) w
        (pre post : list string) (line a : string) tool :
  Py.split text Py.nl = (pre ++ line :: post)%list ->
  Py.startswith line "Action:" = true ->
  Forall (fun x => Py.startswith x "Action:" = false) post ->
  a = Py.strip (Py.replace line "Action:" "") ->
  a <> "" ->
  Py.dict_get (Py.lower (Py.strip a)) (tools self) = Some tool ->
  let Y :=
    Py.join Py.nl (action_input (parse_lines parse_start (Py.split text Py.nl))) in
  let argument :=
    match json_loads Y with
    | Some v => Structured v
    | None => Raw Y
    end in
  _tool_call self text w
  = match run tool argument w with
    | (Ok out, w') => ("Observation: " ++ out, w')
    | (Exc e, w') =>
        ("Observation: There was an error executing the tool." ++ Py.nl
         ++ "Error: " ++ e, w')
    end
  /\ (action_input (parse_lines parse_start (Py.split text Py.nl)) = [] ->
      json_loads "" = None -> argument = Raw "").
Proof.
  intros Hs Hl Hp Ha Hne Hget Y argument. split.
  - rewrite (tool_call_selected self text w tool); [reflexivity |].
    rewrite (parsed_action _ _ _ _ Hs Hl Hp), <- Ha. simpl.
    destruct a; [congruence | exact Hget].
  - intros Hnil Hjson. unfold argument, Y. rewrite Hnil. simpl.
    now rewrite Hjson.
Qed.

(** C10, as the code has it.  Registered names hold no space, and the
    dispatcher looks an action up stripped and lower-cased, with its inner
    spaces kept.  So when the last [Action:] line of a completion gives a
    name that still holds a space once stripped, as [Medication Tool]
    does, no tool runs and the Observation is the not-found one. *)
Theorem spaced_name_not_found (raw_tools : list HealthTool) self
        (text : string) w (pre post : list string) (line a : string) :
  tools self = _format_tools (map model_post_init raw_tools) ->
  Py.split text Py.nl = (pre ++ line :: post)%list ->
  Py.startswith line "Action:" = true ->
  Forall (fun x => Py.startswith x "Action:" = false) post ->
  a = Py.strip (Py.replace line "Action:" "") ->
  Py.str_in " " a = true ->
  _tool_call self text w
  = ("Observation: Tool '" ++ a ++ "' not found. Available tools: "
     ++ Py.repr_list (Py.keys (tools self)), w).
Proof.
  intros Htools Hs Hl Hp Ha Hspace.
  assert (Hact := parsed_action _ _ _ _ Hs Hl Hp). rewrite <- Ha in Hact.
  assert (Hkey : Py.dict_get (Py.lower (Py.strip a)) (tools self) = None).
  { destruct (Py.dict_get _ (tools self)) as [tool|] eqn:E; [| reflexivity].
    rewrite Htools in E. apply format_tools_member in E as [Hin Hname].
    apply in_map_iff in Hin as (t0 & <- & _). simpl in Hname.
    assert (Hsp : Py.str_in " " (Py.lower (Py.strip a)) = true).
    { rewrite lower_keeps_spaces, Ha, strip_idempotent, <- Ha. exact Hspace. }
    rewrite <- Hname, replace_spaces in Hsp. discriminate. }
  rewrite (tool_call_not_found self text w); rewrite Hact.
  - reflexivity.
  - simpl. rewrite Hkey. now destruct (Py.truthy a).
Qed.

End DispatchFacts.

(** ** The properties at concrete inputs *)

(** C1 on a completion that holds a tool step before its final
    response. *)
Lemma final_response_wins_witness :
  get_response asking (scripted [both_markers])
  = (Ok both_markers, asked_times 1 (scripted [both_markers]))
  /\ Py.str_in "Response:" both_markers = true
  /\ exists p,
      Py.startswith (Py.drop p both_markers) "Response:" = true
      /\ (forall q, p < q ->
                    Py.startswith (Py.drop q both_markers) "Response:" = false)
      /\ agent_loop 1 asking (scripted [both_markers])
         = Some (Ok (Py.strip (Py.drop (p + 9) both_markers)),
                 append_message asking assistant both_markers,
                 asked_times 1 (scripted [both_markers]))
      /\ (forall self0 prompt,
             asking = append_message self0 user ("Patient: " ++ prompt) ->
             __call__ 1 self0 prompt (scripted [both_markers])
             = Some (Ok (Py.strip (Py.drop (p + 9) both_markers)),
                     append_message asking assistant both_markers,
                     asked_times 1 (scripted [both_markers]))).
Proof.
  split; [reflexivity | split; [reflexivity |]].
  apply (final_response_wins (R := demo_runtime) 0 asking
           (scripted [both_markers]) both_markers
           (asked_times 1 (scripted [both_markers]))); reflexivity.
Defined.

(** Scenario B, and the same turn with a tool step in the completion. *)
Example scenario_B :
  __call__ 1 demo_agent "when?"
    (scripted ["Thought: done" ++ Py.nl ++ "Response: Take your pill at 8am."])
  = Some (Ok "Take your pill at 8am.",
          append_message
            (append_message demo_agent user "Patient: when?") assistant
            ("Thought: done" ++ Py.nl ++ "Response: Take your pill at 8am."),
          asked_times 1
            (scripted ["Thought: done" ++ Py.nl ++ "Response: Take your pill at 8am."])).
Proof. reflexivity. Qed.

Example both_markers_run :
  __call__ 1 demo_agent "hello" (scripted [both_markers])
  = Some (Ok "Take your pill at 8am.",
          append_message asking assistant both_markers,
          asked_times 1 (scripted [both_markers])).
Proof. reflexivity. Qed.

(** C3 on a provider that is out of quota. *)
Lemma provider_failure_apology_witness :
  get_response (append_message demo_agent user ("Patient: " ++ "hello"))
    (always (Exc "quota exceeded"))
  = (Exc "quota exceeded", asked_times 1 (always (Exc "quota exceeded")))
  /\ (exists self',
         __call__ 1 demo_agent "hello" (always (Exc "quota exceeded"))
         = Some (Ok apology, self', asked_times 1 (always (Exc "quota exceeded")))
         /\ messages self'
            = (messages demo_agent ++ [mkMessage user ("Patient: " ++ "hello")])%list)
  /\ (forall fuel0 (self0 : HealthGuardAgent (R := demo_runtime)) prompt0 w0
             r self' w',
         __call__ fuel0 self0 prompt0 w0 = Some (r, self', w') ->
         exists final, r = Ok final).
Proof.
  split; [reflexivity |].
  apply (provider_failure_apology (R := demo_runtime) 0 demo_agent "hello"
           (always (Exc "quota exceeded")) "quota exceeded"
           (asked_times 1 (always (Exc "quota exceeded")))).
  reflexivity.
Defined.

(** C2, as the claim states it, fails: on a provider that answers every
    call with a completion that holds no marker, the turn never ends,
    whatever the number of rounds allowed. *)
Lemma malformed_loop_never_returns :
  ~ exists fuel r,
      __call__ fuel demo_agent "hello" (always (Ok no_marker)) = Some r.
Proof.
  assert (H : forall fuel (self : HealthGuardAgent (R := demo_runtime)) n,
             llm_provider self = gemini ->
             agent_loop fuel self (asked_times n (always (Ok no_marker))) = None).
  { induction fuel as [|fuel IH]; intros self n Hp; [reflexivity |].
    rewrite (loop_malformed_step fuel self _ no_marker
               (asked_times (S n) (always (Ok no_marker)))).
    - now apply IH.
    - unfold get_response. now rewrite Hp.
    - reflexivity. }
  intros (fuel & r & Hr). unfold __call__ in Hr.
  change (always (Ok no_marker))
    with (asked_times 0 (always (Ok no_marker))) in Hr.
  rewrite H in Hr; [discriminate | reflexivity].
Qed.

(** The loop on two completions without a marker, then a final one: no
    result after two rounds, the final text after the third. *)
Lemma malformed_completion_retries_witness :
  after_malformed 2 asking (scripted [no_marker; no_marker; both_markers])
  = Some (append_message (append_message asking assistant no_marker)
            assistant no_marker,
          asked_times 2 (scripted [no_marker; no_marker; both_markers]))
  /\ agent_loop 2 asking (scripted [no_marker; no_marker; both_markers]) = None
  /\ exists p,
      Py.startswith (Py.drop p both_markers) "Response:" = true
      /\ (forall q, p < q ->
                    Py.startswith (Py.drop q both_markers) "Response:" = false)
      /\ agent_loop (2 + 1) asking
           (scripted [no_marker; no_marker; both_markers])
         = Some (Ok (Py.strip (Py.drop (p + 9) both_markers)),
                 append_message
                   (append_message
                      (append_message asking assistant no_marker)
                      assistant no_marker)
                   assistant both_markers,
                 asked_times 3 (scripted [no_marker; no_marker; both_markers])).
Proof.
  assert (H : after_malformed 2 asking
                (scripted [no_marker; no_marker; both_markers])
              = Some (append_message
                        (append_message asking assistant no_marker)
                        assistant no_marker,
                      asked_times 2
                        (scripted [no_marker; no_marker; both_markers])))
    by reflexivity.
  split; [exact H |].
  destruct (malformed_completion_retries (R := demo_runtime) 2 _ _ _ _ H)
    as (_ & Hnone & _ & Hfinal & _).
  split; [exact Hnone |].
  exact (Hfinal 0 both_markers
           (asked_times 3 (scripted [no_marker; no_marker; both_markers]))
           eq_refl eq_refl).
Defined.

(** C4, as the claim states it, fails: two tools of the same normalized
    name are accepted by the constructor, and the registry keeps the
    second one only. *)
Lemma duplicate_tool_names_accepted :
  name first_tool = name second_tool
  /\ __init__ demo_env [first_tool; second_tool] None None
     = Ok (agent_with [first_tool; second_tool])
  /\ Py.keys (tools (agent_with [first_tool; second_tool]))
     = ["medication_tool"]
  /\ Py.dict_get "medication_tool" (tools (agent_with [first_tool; second_tool]))
     = Some second_tool.
Proof. repeat split. Qed.

(** The registry built from these two tools. *)
Lemma duplicate_names_keep_last_witness :
  env_set (GOOGLE_API_KEY demo_env) || env_set (OPENAI_API_KEY demo_env) = true
  /\ exists agent,
      __init__ demo_env [first_tool; second_tool] None None = Ok agent
      /\ NoDup (Py.keys (tools agent))
      /\ forall n,
          Py.dict_get n (tools agent)
          = List.find (fun t => String.eqb (name t) n)
                      (rev [first_tool; second_tool]).
Proof.
  split; [reflexivity |].
  apply (duplicate_names_keep_last (R := demo_runtime) demo_env
           [first_tool; second_tool] None None).
  reflexivity.
Defined.

(** C5, as the claim states it, fails: the empty name is registered, the
    [Action:] line gives it, and the dispatcher answers that the tool is
    not found. *)
Lemma empty_tool_name_not_dispatched :
  Py.dict_get (Py.lower (Py.strip "")) (tools (agent_with [nameless_tool]))
  = Some nameless_tool
  /\ _parse_action_string (R := demo_runtime) nameless_step = (Some "", Raw "x")
  /\ _tool_call (agent_with [nameless_tool]) nameless_step (always (Ok ""))
     = ("Observation: Tool '' not found. Available tools: ['']",
        always (Ok "")).
Proof. repeat split. Qed.

(** Scenario A: the tool receives the decoded object. *)
Lemma known_tool_dispatch_witness :
  Py.split scenario_A Py.nl
  = (["Thought: ok"] ++ "Action: medication_tool"
       :: [scenario_A_input; "Observation:"])%list
  /\ Py.startswith "Action: medication_tool" "Action:" = true
  /\ Forall (fun x => Py.startswith x "Action:" = false)
            [scenario_A_input; "Observation:"]
  /\ "medication_tool" = Py.strip (Py.replace "Action: medication_tool" "Action:" "")
  /\ "medication_tool" <> ""
  /\ Py.dict_get (Py.lower (Py.strip "medication_tool")) (tools demo_agent)
     = Some medication_tool
  /\ _tool_call demo_agent scenario_A (always (Ok ""))
     = ("Observation: 2 medications",
        mkWorld (fun _ => Ok "") 0
          [("Medication Tool",
            Structured (JObject [("action", JString "list");
                                 ("patient_id", JString "p1")]))]).
Proof.
  assert (H1 : Py.split scenario_A Py.nl
               = (["Thought: ok"] ++ "Action: medication_tool"
                    :: [scenario_A_input; "Observation:"])%list)
    by reflexivity.
  assert (H3 : Forall (fun x => Py.startswith x "Action:" = false)
                      [scenario_A_input; "Observation:"])
    by (repeat constructor).
  assert (H5 : "medication_tool" <> "") by discriminate.
  assert (H6 : Py.dict_get (Py.lower (Py.strip "medication_tool"))
                 (tools demo_agent) = Some medication_tool)
    by reflexivity.
  repeat (split; [first [exact H1 | exact H3 | exact H5 | exact H6 | reflexivity] |]).
  rewrite (proj1 (known_tool_dispatch (R := demo_runtime) demo_agent scenario_A
                    (always (Ok "")) _ _ _ _ medication_tool
                    H1 eq_refl H3 eq_refl H5 H6)).
  reflexivity.
Defined.

(** Scenario C: the Observation on a tool that is not registered, and
    the turn that goes on after it to the final text. *)
Lemma unknown_tool_observation_witness :
  _parse_action_string (R := demo_runtime) unknown_step
  = (Some "unknown_tool", Raw "x")
  /\ (Some "unknown_tool" = None
      \/ exists a, Some "unknown_tool" = Some a
           /\ Py.dict_get (Py.lower (Py.strip a))
                (tools (append_message asking assistant unknown_step)) = None)
  /\ get_response asking (scripted [unknown_step; both_markers])
     = (Ok unknown_step, asked_times 1 (scripted [unknown_step; both_markers]))
  /\ _tool_call (append_message asking assistant unknown_step) unknown_step
       (asked_times 1 (scripted [unknown_step; both_markers]))
     = ("Observation: Tool 'unknown_tool' not found. Available tools: ['medication_tool', 'symptom_tool']",
        asked_times 1 (scripted [unknown_step; both_markers]))
  /\ messages
       (append_message (append_message asking assistant unknown_step) user
          "Observation: Tool 'unknown_tool' not found. Available tools: ['medication_tool', 'symptom_tool']")
     = (messages asking
        ++ [mkMessage assistant unknown_step;
            mkMessage user
              "Observation: Tool 'unknown_tool' not found. Available tools: ['medication_tool', 'symptom_tool']"])%list
  /\ exists p,
      Py.startswith (Py.drop p both_markers) "Response:" = true
      /\ (forall q, p < q ->
                    Py.startswith (Py.drop q both_markers) "Response:" = false)
      /\ agent_loop 2 asking (scripted [unknown_step; both_markers])
         = Some (Ok (Py.strip (Py.drop (p + 9) both_markers)),
                 append_message
                   (append_message
                      (append_message asking assistant unknown_step) user
                      "Observation: Tool 'unknown_tool' not found. Available tools: ['medication_tool', 'symptom_tool']")
                   assistant both_markers,
                 asked_times 2 (scripted [unknown_step; both_markers])).
Proof.
  assert (H1 : _parse_action_string (R := demo_runtime) unknown_step
               = (Some "unknown_tool", Raw "x")) by reflexivity.
  assert (H2 : Some "unknown_tool" = None
               \/ exists a, Some "unknown_tool" = Some a
                    /\ Py.dict_get (Py.lower (Py.strip a))
                         (tools (append_message asking assistant unknown_step))
                       = None)
    by (right; exists "unknown_tool"; split; reflexivity).
  assert (H3 : get_response asking (scripted [unknown_step; both_markers])
               = (Ok unknown_step,
                  asked_times 1 (scripted [unknown_step; both_markers])))
    by reflexivity.
  split; [exact H1 | split; [exact H2 | split; [exact H3 |]]].
  destruct (unknown_tool_observation (R := demo_runtime)
              (append_message asking assistant unknown_step) unknown_step
              (asked_times 1 (scripted [unknown_step; both_markers]))
              _ _ H1 H2)
    as (Hcall & _ & _ & Hloop).
  destruct (Hloop 0 asking (scripted [unknown_step; both_markers])
              eq_refl H3 eq_refl eq_refl eq_refl)
    as (Hmsgs & _ & Hfinal & _).
  split; [exact Hcall | split; [exact Hmsgs |]].
  exact (Hfinal both_markers
           (asked_times 2 (scripted [unknown_step; both_markers]))
           eq_refl eq_refl).
Defined.

(** Scenario C in the loop: the turn goes on after the Observation. *)
Example scenario_C :
  __call__ 2 demo_agent "hello" (scripted [unknown_step; both_markers])
  = Some (Ok "Take your pill at 8am.",
          append_message
            (append_message
               (append_message asking assistant unknown_step) user
               "Observation: Tool 'unknown_tool' not found. Available tools: ['medication_tool', 'symptom_tool']")
            assistant both_markers,
          asked_times 2 (scripted [unknown_step; both_markers])).
Proof. reflexivity. Qed.

(** C7, as the claim states it, fails: the indented line reaches the
    argument without its leading and trailing spaces. *)
Lemma indented_line_not_verbatim :
  Py.split indented_input Py.nl
  = ["Action: symptom_tool"; "Action Input: first"; "   indented line  ";
     "Observation: done"]
  /\ action_input (parse_lines parse_start (Py.split indented_input Py.nl))
     = ["first"; "indented line"]
  /\ _parse_action_string (R := demo_runtime) indented_input
     = (Some "symptom_tool", Raw ("first" ++ Py.nl ++ "indented line")).
Proof. repeat split. Qed.

(** An argument whose lines are interrupted by an [Action:] line and a
    blank line: the indented line and the last line are still appended,
    stripped, and the pieces are joined by newlines. *)
Lemma continuation_lines_stripped_witness :
  Py.split interrupted_input Py.nl
  = (["Thought: ok"]
     ++ "Action Input: first"
     :: ["Action: symptom_tool"; "   indented line  "; "  "; "last"]
     ++ "Observation: done" :: ["Thought: bye"])%list
  /\ Py.startswith "Action Input: first" "Action Input:" = true
  /\ Forall (fun x => Py.startswith x "Observation:" = false)
       ["Action: symptom_tool"; "   indented line  "; "  "; "last"]
  /\ Py.startswith "Observation: done" "Observation:" = true
  /\ action_input (parse_lines parse_start (Py.split interrupted_input Py.nl))
     = ["first"; "indented line"; "last"]
  /\ snd (_parse_action_string (R := demo_runtime) interrupted_input)
     = Raw ("first" ++ Py.nl ++ "indented line" ++ Py.nl ++ "last")
  /\ In "indented line"
       (flat_map continuation_of
          ["Action: symptom_tool"; "   indented line  "; "  "; "last"]).
Proof.
  assert (H1 : Py.split interrupted_input Py.nl
               = (["Thought: ok"]
                  ++ "Action Input: first"
                  :: ["Action: symptom_tool"; "   indented line  "; "  ";
                      "last"]
                  ++ "Observation: done" :: ["Thought: bye"])%list)
    by reflexivity.
  assert (H2 : Forall (fun x => Py.startswith x "Observation:" = false)
                 ["Action: symptom_tool"; "   indented line  "; "  "; "last"])
    by (repeat constructor).
  split; [exact H1 | split; [reflexivity | split; [exact H2 |]]].
  split; [reflexivity |].
  destruct (continuation_lines_stripped (R := demo_runtime) interrupted_input
              _ _ _ _ _ H1 eq_refl H2 eq_refl)
    as (Hpieces & Hjoin & Hin & _).
  split; [exact Hpieces | split; [exact Hjoin |]].
  apply (Hin "   indented line  ");
    [right; left; reflexivity | reflexivity | discriminate].
Defined.

(** C8 on the agent of Scenario A. *)
Lemma system_message_first_witness :
  __init__ demo_env [medication_tool; symptom_tool] None (Some "p1")
  = Ok demo_agent
  /\ exists first,
      role first = system
      /\ messages demo_agent = [first]
      /\ forall cs w self' w',
          run_calls cs demo_agent w = Some (self', w') ->
          (exists rest, messages self' = first :: rest)
          /\ List.hd_error (get_conversation_history self') = Some first
          /\ clear_conversation self'
             = (Ok "Conversation history cleared.", set_messages self' [first])
          /\ messages (snd (clear_conversation self')) = [first].
Proof.
  split; [reflexivity |].
  apply (system_message_first (R := demo_runtime) demo_env
           [medication_tool; symptom_tool] None (Some "p1") demo_agent).
  reflexivity.
Defined.

(** Scenario D: clearing a conversation of ten messages leaves one. *)
Example scenario_D :
  let grown :=
    set_messages demo_agent
      (messages demo_agent ++ repeat (mkMessage user "Patient: hello") 9) in
  List.length (messages grown) = 10
  /\ List.length (messages (snd (clear_conversation grown))) = 1.
Proof. split; reflexivity. Qed.

(** C9 on a completion with two [Action Input:] lines. *)
Lemma action_input_lines_accumulate_witness :
  Py.split two_inputs Py.nl
  = (["Action: symptom_tool"] ++ "Action Input: a"
       :: ["more"] ++ "Action Input: b" :: [])%list
  /\ Py.startswith "Action Input: a" "Action Input:" = true
  /\ Py.startswith "Action Input: b" "Action Input:" = true
  /\ action_input (parse_lines parse_start (Py.split two_inputs Py.nl))
     = ["a"; "more"; "b"]
  /\ snd (_parse_action_string (R := demo_runtime) two_inputs)
     = Raw ("a" ++ Py.nl ++ "more" ++ Py.nl ++ "b").
Proof.
  assert (H1 : Py.split two_inputs Py.nl
               = (["Action: symptom_tool"] ++ "Action Input: a"
                    :: ["more"] ++ "Action Input: b" :: [])%list)
    by reflexivity.
  split; [exact H1 | split; [reflexivity | split; [reflexivity |]]].
  destruct (action_input_lines_accumulate (R := demo_runtime) two_inputs
              _ _ _ _ _ H1 eq_refl eq_refl) as (E1 & E2 & _).
  split; [exact E1 | exact E2].
Defined.

(** C10, as the claim states it, fails: the tool declared as ["Refill "]
    is registered as [refill_]; the [Action:] line that gives the declared
    name is looked up as [refill], which another tool bears, and that
    tool runs. *)
Lemma trailing_space_name_dispatched :
  name refill_spaced = "refill_"
  /\ Py.keys (tools (agent_with [refill_spaced; refill_plain]))
     = ["refill_"; "refill"]
  /\ _tool_call (agent_with [refill_spaced; refill_plain]) refill_step
       (always (Ok ""))
     = ("Observation: stock",
        mkWorld (fun _ => Ok "") 0 [("refill", Raw "x")]).
Proof. repeat split. Qed.

(** The declared name of the medication tool in an [Action:] line. *)
Lemma spaced_name_not_found_witness :
  tools demo_agent
  = _format_tools
      (map model_post_init
         [raw_tool "Medication Tool" "2 medications";
          raw_tool "Symptom Tool" "no symptoms"])
  /\ Py.split spaced_step Py.nl
     = ([] ++ "Action: Medication Tool" :: ["Action Input: list"])%list
  /\ Py.startswith "Action: Medication Tool" "Action:" = true
  /\ Forall (fun x => Py.startswith x "Action:" = false) ["Action Input: list"]
  /\ "Medication Tool"
     = Py.strip (Py.replace "Action: Medication Tool" "Action:" "")
  /\ Py.str_in " " "Medication Tool" = true
  /\ _tool_call demo_agent spaced_step (always (Ok ""))
     = ("Observation: Tool 'Medication Tool' not found. Available tools: ['medication_tool', 'symptom_tool']",
        always (Ok "")).
Proof.
  assert (H1 : tools demo_agent
               = _format_tools
                   (map model_post_init
                      [raw_tool "Medication Tool" "2 medications";
                       raw_tool "Symptom Tool" "no symptoms"]))
    by reflexivity.
  assert (H2 : Py.split spaced_step Py.nl
               = ([] ++ "Action: Medication Tool" :: ["Action Input: list"])%list)
    by reflexivity.
  assert (H4 : Forall (fun x => Py.startswith x "Action:" = false)
                      ["Action Input: list"])
    by (repeat constructor).
  repeat (split; [first [exact H1 | exact H2 | exact H4 | reflexivity] |]).
  exact (spaced_name_not_found (R := demo_runtime) _ demo_agent spaced_step
           (always (Ok "")) _ _ _ _ H1 H2 eq_refl H4 eq_refl eq_refl).
Defined.

(* ===================================================================== *)
(** * Part III.  Further properties *)
(* ===================================================================== *)

(** ** The loop and the conversation *)

Section TurnFacts.

Context {R : Runtime}.

Implicit Types (self : HealthGuardAgent) (w : World).

Lemma append_as_set self (r : Role) (c : string) :
  append_message self r c
  = set_messages self (messages self ++ [mkMessage r c]).
Proof. reflexivity. Qed.

Lemma loop_result_stripped (fuel : nat) self w (final : string) self' w' :
  agent_loop fuel self w = Some (Ok final, self', w') ->
  Py.strip final = final.
Proof.
  revert self w. induction fuel as [|fuel IH]; intros self w; [discriminate |].
  simpl. destruct (get_response self w) as [[c | e] w1]; [| discriminate].
  destruct (Py.str_in "Response:" c).
  - destruct (Py.last_item _); [| discriminate].
    intros [= <- _ _]. apply strip_idempotent.
  - destruct (Py.str_in "Action:" c && Py.str_in "Action Input:" c).
    + destruct (_tool_call _ c w1) as [obs w2]. apply IH.
    + apply IH.
Qed.

(** X1.  Whatever text [__call__] returns, a final response or the
    apology, stripping it changes nothing: it has no whitespace at either
    end. *)
Theorem call_result_stripped (fuel : nat) self (prompt : string) w
        (final : string) self' w' :
  __call__ fuel self prompt w = Some (Ok final, self', w') ->
  Py.strip final = final.
Proof.
  unfold __call__.
  destruct (agent_loop fuel _ w) as [[[[x | e] a] w0] |] eqn:E;
    [| | discriminate].
  - intros [= <- _ _]. exact (loop_result_stripped _ _ _ _ _ _ E).
  - intros [= <- _ _]. reflexivity.
Qed.

Lemma tool_call_raised self (text : string) w (tool : HealthTool)
      (e : string) w' :
  selected_tool self (fst (_parse_action_string text)) = Some tool ->
  run tool (snd (_parse_action_string text)) w = (Exc e, w') ->
  _tool_call self text w
  = ("Observation: There was an error executing the tool." ++ Py.nl
     ++ "Error: " ++ e, w').
Proof.
  unfold _tool_call. destruct (_parse_action_string text) as [act inp].
  simpl. now intros -> ->.
Qed.

(** X2.  A tool that raises does not end the turn: the dispatcher turns
    the exception into an Observation that carries its message, and the
    world is the one the tool left.  In the loop the conversation then
    holds the completion as an assistant message followed by that
    Observation as a user message, and the provider is asked again with
    it: the turn goes on, to the final text of the next completion when
    it holds [Response:], and it fails only if the provider raises. *)
Theorem tool_failure_observed self (text : string) w (tool : HealthTool)
        (e : string) w' :
  selected_tool self (fst (_parse_action_string text)) = Some tool ->
  run tool (snd (_parse_action_string text)) w = (Exc e, w') ->
  let observation :=
    "Observation: There was an error executing the tool." ++ Py.nl
    ++ "Error: " ++ e in
  _tool_call self text w = (observation, w')
  /\ (forall fuel self0 w0,
         self = append_message self0 assistant text ->
         get_response self0 w0 = (Ok text, w) ->
         Py.str_in "Response:" text = false ->
         Py.str_in "Action:" text = true ->
         Py.str_in "Action Input:" text = true ->
         let self2 := append_message self user observation in
         messages self2
         = (messages self0
            ++ [mkMessage assistant text; mkMessage user observation])%list
         /\ agent_loop (S fuel) self0 w0 = agent_loop fuel self2 w'
         /\ (forall completion w2,
                get_response self2 w' = (Ok completion, w2) ->
                Py.str_in "Response:" completion = true ->
                exists p,
                  Py.startswith (Py.drop p completion) "Response:" = true
                  /\ (forall q, p < q ->
                                Py.startswith (Py.drop q completion)
                                  "Response:" = false)
                  /\ agent_loop (S (S fuel)) self0 w0
                     = Some (Ok (Py.strip (Py.drop (p + 9) completion)),
                             append_message self2 assistant completion, w2))
         /\ (forall e2 w2,
                get_response self2 w' = (Exc e2, w2) ->
                agent_loop (S (S fuel)) self0 w0
                = Some (Exc e2, self2, w2))).
Proof.
  intros Hsel Hrun observation.
  assert (Hcall := tool_call_raised _ _ _ _ _ _ Hsel Hrun).
  split; [exact Hcall |].
  intros fuel self0 w0 Hself Hresp H1 H2 H3. subst self.
  exact (tool_step_continues fuel self0 w0 text observation w w'
           Hresp H1 H2 H3 Hcall).
Qed.

Lemma tool_call_prefix self (text : string) w :
  Py.startswith (fst (_tool_call self text w)) "Observation: " = true.
Proof.
  unfold _tool_call. destruct (_parse_action_string text) as [act inp].
  destruct (selected_tool self act) as [tool|]; [| reflexivity].
  destruct (run tool inp w) as [[out | e] w']; reflexivity.
Qed.

Lemma loop_transcript (fuel : nat) self w (r : PyResult string) self' w' :
  agent_loop fuel self w = Some (r, self', w') ->
  exists more,
    self' = set_messages self (messages self ++ more)
    /\ forallb turn_message more = true.
Proof.
  revert self w. induction fuel as [|fuel IH]; intros self w; [discriminate |].
  simpl. destruct (get_response self w) as [[c | e] w1].
  - destruct (Py.str_in "Response:" c).
    + destruct (Py.last_item _); intros [= _ <- _];
        exists [mkMessage assistant c]; now rewrite append_as_set.
    + destruct (Py.str_in "Action:" c && Py.str_in "Action Input:" c).
      * destruct (_tool_call _ c w1) as [obs w2] eqn:Ecall. intros H.
        destruct (IH _ _ H) as (more & -> & Hmore).
        exists ([mkMessage assistant c; mkMessage user obs] ++ more)%list.
        split.
        -- unfold append_message, set_messages. simpl.
           now rewrite <- !app_assoc.
        -- simpl. rewrite Hmore, andb_true_r.
           change obs with (fst (obs, w2)). rewrite <- Ecall.
           apply tool_call_prefix.
      * intros H. destruct (IH _ _ H) as (more & -> & Hmore).
        exists ([mkMessage assistant c] ++ more)%list. split.
        -- unfold append_message, set_messages. simpl.
           now rewrite <- !app_assoc.
        -- simpl. exact Hmore.
  - intros [= _ <- _]. exists []. rewrite app_nil_r. now destruct self.
Qed.

Lemma call_transcript (fuel : nat) self (prompt : string) w
      (r : PyResult string) self' w' :
  __call__ fuel self prompt w = Some (r, self', w') ->
  exists more,
    self' = set_messages self
              (messages self ++ mkMessage user ("Patient: " ++ prompt) :: more)
    /\ forallb turn_message more = true.
Proof.
  unfold __call__.
  destruct (agent_loop fuel _ w) as [[[r0 a] w0] |] eqn:E; [| discriminate].
  intros Hret.
  assert (a = self') as <- by (destruct r0; now injection Hret).
  destruct (loop_transcript _ _ _ _ _ _ E) as (more & -> & Hmore).
  exists more. split; [| exact Hmore].
  unfold append_message, set_messages. cbn [messages llm_provider tools
    health_prompt patient_id]. now rewrite <- app_assoc.
Qed.

(** X3.  A turn leaves the agent as it was but for its conversation, which
    grows by the patient message followed by assistant messages and by
    user messages that begin with [Observation: ]; nothing is removed or
    rewritten, and the registry, the provider, the prompt and the patient
    identifier are never touched. *)
Theorem turn_transcript (fuel : nat) self (prompt : string) w
        (r : PyResult string) self' w' :
  __call__ fuel self prompt w = Some (r, self', w') ->
  exists more,
    self' = set_messages self
              (messages self ++ mkMessage user ("Patient: " ++ prompt) :: more)
    /\ forallb turn_message more = true.
Proof.
  unfold __call__.
  destruct (agent_loop fuel _ w) as [[[r0 a] w0] |] eqn:E; [| discriminate].
  intros Hret.
  assert (a = self') as <- by (destruct r0; now injection Hret).
  destruct (loop_transcript _ _ _ _ _ _ E) as (more & -> & Hmore).
  exists more. split; [| exact Hmore].
  unfold append_message, set_messages.
  cbn [messages llm_provider tools health_prompt patient_id].
  now rewrite <- app_assoc.
Qed.

Lemma turn_message_not_system (m : Message) :
  turn_message m = true -> role m <> system.
Proof. unfold turn_message. destruct (role m); congruence. Qed.

Lemma run_call_shape (c : AgentCall) (agent : HealthGuardAgent) self w self' w'
      (first : Message) (rest : list Message) :
  self = set_messages agent (first :: rest) ->
  Forall (fun m => role m <> system) rest ->
  run_call c self w = Some (self', w') ->
  exists rest',
    self' = set_messages agent (first :: rest')
    /\ Forall (fun m => role m <> system) rest'.
Proof.
  intros -> Hrest. destruct c as [fuel prompt | |]; simpl.
  - destruct (__call__ fuel _ prompt w) as [[[r a] w0] |] eqn:E;
      [| discriminate].
    intros [= <- _]. destruct (call_transcript _ _ _ _ _ _ _ E) as (more & -> & Hm).
    exists (rest ++ mkMessage user ("Patient: " ++ prompt) :: more)%list.
    split; [reflexivity |].
    apply Forall_app. split; [exact Hrest |].
    constructor; [discriminate |].
    apply Forall_forall. intros m Hin. apply turn_message_not_system.
    rewrite forallb_forall in Hm. now apply Hm.
  - intros [= <- _]. now exists rest.
  - intros [= <- _]. exists []. split; [reflexivity | constructor].
Qed.

(** X4.  From the constructor on, through any calls of [__call__],
    [get_conversation_history] and [clear_conversation], the agent
    differs from the constructed one by its conversation only, and the
    conversation holds one system message, the first one: no call adds a
    second. *)
Theorem one_system_message (env : Environ) (ts : list HealthTool)
        (system_prompt pid : option string) (agent : HealthGuardAgent)
        (cs : list AgentCall) w self' w' :
  __init__ env ts system_prompt pid = Ok agent ->
  run_calls cs agent w = Some (self', w') ->
  exists first rest,
    messages agent = [first]
    /\ role first = system
    /\ self' = set_messages agent (first :: rest)
    /\ Forall (fun m => role m <> system) rest.
Proof.
  intros Hinit Hrun.
  assert (Hone : exists first,
             agent = set_messages agent [first] /\ role first = system).
  { unfold __init__ in Hinit.
    destruct (env_set (GOOGLE_API_KEY env));
      [| destruct (env_set (OPENAI_API_KEY env)); [| discriminate]];
      injection Hinit as <-; eexists; split; reflexivity. }
  destruct Hone as (first & Hagent & Hrole).
  assert (Hgen : forall cs self w rest,
             self = set_messages agent (first :: rest) ->
             Forall (fun m => role m <> system) rest ->
             run_calls cs self w = Some (self', w') ->
             exists rest',
               self' = set_messages agent (first :: rest')
               /\ Forall (fun m => role m <> system) rest').
  { clear cs w Hrun. induction cs as [|c cs IH]; intros self w rest Hs Hr; simpl.
    - intros [= <- _]. now exists rest.
    - destruct (run_call c self w) as [[a w0] |] eqn:E; [| discriminate].
      destruct (run_call_shape _ _ _ _ _ _ _ _ Hs Hr E) as (rest' & Hs' & Hr').
      now apply IH with (rest := rest'). }
  destruct (Hgen cs agent w [] Hagent (Forall_nil _) Hrun) as (rest & Hs & Hr).
  exists first, rest. repeat split; auto.
  rewrite Hagent. reflexivity.
Qed.

End TurnFacts.

(** ** The constructor and the prompts *)

Section PromptFacts.

Context {R : Runtime}.

Implicit Types (self : HealthGuardAgent) (w : World).

(** X5.  The constructor raises exactly when neither API key is set to a
    text that is not empty; a Google key selects Gemini whatever the
    OpenAI key is; and the provider that [get_llm_provider] displays is
    the one the agent uses. *)
Theorem init_provider (env : Environ) (ts : list HealthTool)
        (system_prompt pid : option string) :
  match __init__ env ts system_prompt pid with
  | Ok agent =>
      env_set (GOOGLE_API_KEY env) || env_set (OPENAI_API_KEY env) = true
      /\ llm_provider agent
         = (if env_set (GOOGLE_API_KEY env) then gemini else openai)
      /\ get_llm_provider env
         = match llm_provider agent with
           | gemini => "Google Gemini"
           | openai => "OpenAI GPT"
           end
  | Exc e =>
      env_set (GOOGLE_API_KEY env) = false
      /\ env_set (OPENAI_API_KEY env) = false
      /\ e = "Neither GOOGLE_API_KEY nor OPENAI_API_KEY environment variables are set"
      /\ get_llm_provider env = "Unknown Provider (No API Key Detected)"
  end.
Proof.
  unfold __init__, get_llm_provider.
  destruct (env_set (GOOGLE_API_KEY env));
    [| destruct (env_set (OPENAI_API_KEY env))]; simpl; auto.
Qed.

Lemma str_in_middle (x a t b : string) :
  Py.str_in x t = true -> Py.str_in x (a ++ t ++ b) = true.
Proof.
  intros H. apply str_in_inv in H as (u & v & ->).
  rewrite !append_assoc, <- (append_assoc a u). apply str_in_append.
Qed.

Lemma str_in_join (sep x y : string) (l : list string) :
  In y l -> Py.str_in x y = true -> Py.str_in x (Py.join sep l) = true.
Proof.
  intros Hin Hx. destruct (join_In sep y l Hin) as (a & b & ->).
  now apply str_in_middle.
Qed.

Lemma str_in_refl (x : string) : Py.str_in x x = true.
Proof.
  rewrite <- (append_nil_r x) at 2. apply (str_in_append x "" "").
Qed.

Lemma health_prompt_holds (tools_text names_text x : string) :
  Py.str_in x tools_text = true \/ Py.str_in x names_text = true ->
  Py.str_in x (HEALTH_AGENT_SYSTEM_PROMPT tools_text names_text) = true.
Proof.
  unfold HEALTH_AGENT_SYSTEM_PROMPT. intros [H | H].
  - now apply str_in_middle.
  - apply str_in_append_r, str_in_append_r, str_in_append_r.
    now apply (str_in_middle x "").
Qed.

(** X6.  The prompt the constructor builds names every tool it was given:
    it holds the description block of each tool, and so its name.  It is
    the content of the system message unless a system prompt that is not
    empty was passed, which is then used as it is; an empty one counts as
    none. *)
Theorem health_prompt_lists_tools (env : Environ) (ts : list HealthTool)
        (system_prompt pid : option string) (agent : HealthGuardAgent) :
  __init__ env ts system_prompt pid = Ok agent ->
  (forall t, In t ts ->
             Py.str_in (get_tool_description t) (health_prompt agent) = true
             /\ Py.str_in (name t) (health_prompt agent) = true)
  /\ messages agent
     = [mkMessage system
          match system_prompt with
          | Some "" | None => health_prompt agent
          | Some p => p
          end].
Proof.
  unfold __init__. intros Hinit.
  assert (E : health_prompt agent
              = HEALTH_AGENT_SYSTEM_PROMPT
                  (Py.join (Py.nl ++ Py.nl) (map get_tool_description ts))
                  (Py.join ", " (map name ts))
              /\ messages agent
                 = [mkMessage system
                      match system_prompt with
                      | Some "" | None => health_prompt agent
                      | Some p => p
                      end]).
  { destruct (env_set (GOOGLE_API_KEY env));
      [| destruct (env_set (OPENAI_API_KEY env)); [| discriminate]];
      injection Hinit as <-; (split; [reflexivity |]);
      cbn [messages health_prompt]; destruct system_prompt as [[|c p] |];
      reflexivity. }
  destruct E as [Eprompt Emsg]. split; [| exact Emsg].
  intros t Hin. rewrite Eprompt. split; apply health_prompt_holds.
  - left. apply str_in_join with (y := get_tool_description t).
    + now apply in_map.
    + apply str_in_refl.
  - right. apply str_in_join with (y := name t).
    + now apply in_map.
    + apply str_in_refl.
Qed.

Lemma join_snoc2 (sep x y : string) (l : list string) :
  Py.join sep (l ++ [x; y]) = Py.join sep (l ++ [x ++ sep ++ y]).
Proof.
  induction l as [|z l IH]; [reflexivity |].
  destruct l as [|z' l].
  - reflexivity.
  - change (Py.join sep ((z :: z' :: l) ++ [x; y]))
      with (z ++ sep ++ Py.join sep ((z' :: l) ++ [x; y])).
    change (Py.join sep ((z :: z' :: l) ++ [x ++ sep ++ y]))
      with (z ++ sep ++ Py.join sep ((z' :: l) ++ [x ++ sep ++ y])).
    now rewrite IH.
Qed.

(** X7.  With Gemini the provider is sent one text that holds every
    message of the conversation under the label of its role.  That text
    does not keep the boundaries of messages: a user message that goes on
    with a blank line and [System: ...] gives the same text as a user
    message followed by a system message. *)
Theorem gemini_prompt_rendering self w :
  llm_provider self = gemini ->
  exists full_prompt,
    get_response self w = generate_content full_prompt w
    /\ (forall m, In m (messages self) ->
                  Py.str_in (prompt_part m) full_prompt = true
                  /\ Py.str_in (content m) full_prompt = true)
    /\ (forall a b,
           get_response
             (set_messages self
                (messages self
                 ++ [mkMessage user (a ++ Py.nl ++ Py.nl ++ "System: " ++ b)]))
             w
           = get_response
               (set_messages self
                  (messages self ++ [mkMessage user a; mkMessage system b]))
               w).
Proof.
  intros Hp. unfold get_response. rewrite Hp.
  exists (Py.join (Py.nl ++ Py.nl) (map prompt_part (messages self))).
  split; [reflexivity | split].
  - intros m Hin.
    assert (H : Py.str_in (prompt_part m)
                  (Py.join (Py.nl ++ Py.nl) (map prompt_part (messages self)))
                = true).
    { apply str_in_join with (y := prompt_part m);
        [now apply in_map | apply str_in_refl]. }
    split; [exact H |].
    apply str_in_join with (y := prompt_part m); [now apply in_map |].
    unfold prompt_part. destruct (role m);
      apply str_in_append_r, str_in_refl.
  - intros a b. unfold set_messages. cbn [llm_provider]. rewrite Hp.
    unfold _get_gemini_response. cbn [messages].
    rewrite !map_app. cbn [map].
    rewrite join_snoc2. reflexivity.
Qed.

End PromptFacts.

(** ** More on the action parser *)

Section MoreParserFacts.

Context {R : Runtime}.

Implicit Types (st : ParseState) (line : string) (lines : list string).

#[local] Arguments Py.startswith : simpl never.
#[local] Arguments Py.strip : simpl never.
#[local] Arguments Py.replace : simpl never.

Lemma parse_lines_snoc st lines line :
  parse_lines st (lines ++ [line]) = parse_line (parse_lines st lines) line.
Proof. now rewrite parse_lines_app. Qed.

Lemma action_absent st lines :
  action (parse_lines st lines) = None
  <-> action st = None
      /\ Forall (fun x => Py.startswith x "Action:" = false) lines.
Proof.
  induction lines as [|line lines IH] using rev_ind.
  - simpl. split; [intros H; split; [exact H | constructor] | tauto].
  - rewrite parse_lines_snoc, Forall_app.
    destruct (Py.startswith line "Action:") eqn:E.
    + rewrite (parse_line_action _ _ E). simpl. split; [discriminate |].
      intros (_ & _ & H). inversion H; congruence.
    + rewrite (parse_line_keeps_action _ _ E), IH.
      split; [intros [H1 H2]; repeat split; auto | tauto].
Qed.

(** X8.  The parser gives no action exactly when no line of the
    completion begins with [Action:]; the marker elsewhere in a line, as
    in an indented line, does not count.  The dispatcher then reports
    the tool [None] as not found, whatever the registry holds. *)
Theorem action_needs_line_start (self : HealthGuardAgent) (text : string)
        (w : World) :
  (fst (_parse_action_string text) = None
   <-> Forall (fun x => Py.startswith x "Action:" = false)
              (Py.split text Py.nl))
  /\ (Forall (fun x => Py.startswith x "Action:" = false)
             (Py.split text Py.nl) ->
      _tool_call self text w
      = ("Observation: Tool 'None' not found. Available tools: "
         ++ Py.repr_list (Py.keys (tools self)), w)).
Proof.
  assert (Hiff : fst (_parse_action_string text) = None
                 <-> Forall (fun x => Py.startswith x "Action:" = false)
                            (Py.split text Py.nl)).
  { unfold _parse_action_string. cbn [fst]. rewrite action_absent.
    simpl. tauto. }
  split; [exact Hiff |].
  intros H. apply Hiff in H.
  rewrite (tool_call_not_found self text w); rewrite H; reflexivity.
Qed.

Lemma parse_line_entries st line :
  Forall (fun x => x <> "" /\ Py.strip x = x) (action_input st) ->
  Forall (fun x => x <> "" /\ Py.strip x = x)
         (action_input (parse_line st line)).
Proof.
  intros H. unfold parse_line.
  destruct (Py.startswith line "Action:"); [exact H |].
  destruct (Py.startswith line "Action Input:").
  { cbn [action_input].
    destruct (Py.strip (Py.replace line "Action Input:" "")) eqn:E;
      cbn [Py.truthy]; [exact H |].
    apply Forall_app. split; [exact H |].
    constructor; [| constructor]. split; [discriminate |].
    rewrite <- E. apply strip_idempotent. }
  destruct (Py.startswith line "Observation:"); [exact H |].
  destruct (is_action_input st); [| exact H].
  destruct (Py.strip line) eqn:E; cbn [andb Py.truthy]; [exact H |].
  cbn [action_input]. apply Forall_app. split; [exact H |].
  constructor; [| constructor]. split; [discriminate |].
  rewrite <- E. apply strip_idempotent.
Qed.

Lemma parse_lines_entries st lines :
  Forall (fun x => x <> "" /\ Py.strip x = x) (action_input st) ->
  Forall (fun x => x <> "" /\ Py.strip x = x)
         (action_input (parse_lines st lines)).
Proof.
  revert st. induction lines as [|line lines IH]; intros st H; [exact H |].
  rewrite parse_lines_cons. apply IH. now apply parse_line_entries.
Qed.

Lemma join_empty (sep : string) (l : list string) :
  Forall (fun x => x <> "") l -> Py.join sep l = "" -> l = [].
Proof.
  intros H. destruct l as [|x l]; [reflexivity |].
  inversion H as [|? ? Hx _]; subst.
  destruct x as [|c x]; [congruence |].
  destruct l; discriminate.
Qed.

(** X9.  Every piece the parser accumulates for the argument is a text
    that is not empty and has no whitespace at either end; so the
    argument text, the pieces joined by newlines, is empty only when
    nothing was accumulated. *)
Theorem argument_pieces_stripped (text : string) :
  let pieces :=
    action_input (parse_lines parse_start (Py.split text Py.nl)) in
  Forall (fun x => x <> "" /\ Py.strip x = x) pieces
  /\ (Py.join Py.nl pieces = "" <-> pieces = []).
Proof.
  intros pieces.
  assert (H : Forall (fun x => x <> "" /\ Py.strip x = x) pieces).
  { apply parse_lines_entries. constructor. }
  split; [exact H | split].
  - apply join_empty. eapply Forall_impl; [| exact H]. now intros x [Hx _].
  - now intros ->.
Qed.

Lemma parse_line_idle st line :
  is_action_input st = false ->
  Py.startswith line "Action Input:" = false ->
  action_input (parse_line st line) = action_input st
  /\ is_action_input (parse_line st line) = false.
Proof.
  intros Hf Hl. unfold parse_line. rewrite Hl, Hf.
  destruct (Py.startswith line "Action:"); [now split |].
  destruct (Py.startswith line "Observation:"); now split.
Qed.

(** X10.  While no [Action Input:] line has opened the argument, or after
    an [Observation:] line has closed it, the lines that are read add
    nothing to it: thoughts and observations never reach the tool. *)
Theorem idle_lines_ignored st lines :
  is_action_input st = false ->
  Forall (fun x => Py.startswith x "Action Input:" = false) lines ->
  action_input (parse_lines st lines) = action_input st
  /\ is_action_input (parse_lines st lines) = false.
Proof.
  intros Hf H. revert st Hf.
  induction H as [|line lines Hl _ IH]; intros st Hf; [now split |].
  rewrite parse_lines_cons.
  destruct (parse_line_idle st line Hf Hl) as [Hi Hf'].
  destruct (IH _ Hf') as [IHi IHf]. now rewrite IHi, IHf, Hi.
Qed.

End MoreParserFacts.

(** ** Normalized names and the registry *)

Section RegistryFacts.

Context {R : Runtime}.

Implicit Types (self : HealthGuardAgent) (w : World) (t : HealthTool).

Lemma find_at_start (s sep : string) :
  Py.startswith s sep = true -> Py.find s sep = Some 0.
Proof. intros H. destruct s; simpl; now rewrite H. Qed.

Lemma find_Some_str_in (s sep : string) (i : nat) :
  Py.find s sep = Some i -> Py.str_in sep s = true.
Proof.
  intros H. rewrite (find_Some _ _ _ H). apply str_in_append.
Qed.

Lemma str_in_false_find (s sep : string) :
  Py.str_in sep s = false -> Py.find s sep = None.
Proof.
  intros H. destruct (Py.find s sep) as [i|] eqn:E; [| reflexivity].
  apply find_Some_str_in in E. congruence.
Qed.

Lemma replace_from_none (n : nat) (s old new : string) :
  Py.find s old = None -> Py.replace_from n s old new = s.
Proof. intros H. destruct n; simpl; [reflexivity | now rewrite H]. Qed.

Lemma replace_from_fuel (old new : string) :
  old <> "" ->
  forall (n m : nat) (x : string),
    String.length x <= n -> String.length x <= m ->
    Py.replace_from n x old new = Py.replace_from m x old new.
Proof.
  intros Hold. induction n as [|n IH]; intros m x Hn Hm.
  - destruct x; [| simpl in Hn; lia].
    rewrite !replace_from_none; auto;
      simpl; now rewrite (startswith_empty _ Hold).
  - destruct m as [|m].
    + destruct x; [| simpl in Hm; lia].
      rewrite !replace_from_none; auto;
        simpl; now rewrite (startswith_empty _ Hold).
    + simpl. destruct (Py.find x old) as [i|]; [| reflexivity].
      do 2 f_equal. apply IH; rewrite length_drop;
        destruct old; try congruence; simpl; lia.
Qed.

Lemma replace_from_S (n : nat) (s old new : string) :
  Py.replace_from (S n) s old new
  = match Py.find s old with
    | None => s
    | Some i =>
        Py.take i s ++ new
        ++ Py.replace_from n (Py.drop (i + String.length old) s) old new
    end.
Proof. reflexivity. Qed.

Lemma find_char_cons (a c : ascii) (s : string) :
  Py.find (String c s) (String a "")
  = if Ascii.eqb a c then Some 0
    else option_map S (Py.find s (String a "")).
Proof. simpl. now rewrite andb_true_r. Qed.

(** Replacing one character by another, one position at a time. *)
Lemma replace_char_cons (a b c : ascii) (s : string) :
  Py.replace (String c s) (String a "") (String b "")
  = String (if Ascii.eqb a c then b else c)
           (Py.replace s (String a "") (String b "")).
Proof.
  unfold Py.replace.
  change (String.length (String c s)) with (S (String.length s)).
  rewrite replace_from_S, find_char_cons.
  destruct (Ascii.eqb a c) eqn:E.
  - reflexivity.
  - destruct (Py.find s (String a "")) as [j|] eqn:F; cbn [option_map].
    + rewrite (replace_from_fuel (String a "") (String b "")
                 ltac:(discriminate) (String.length s)
                 (S (String.length s)) s) by lia.
      rewrite replace_from_S, F.
      cbn [Py.take String.append String.length].
      replace (S j + 1) with (S (j + 1)) by lia. reflexivity.
    + now rewrite replace_from_none.
Qed.

Lemma normalized_cons (c : ascii) (s : string) :
  Py.replace (Py.lower (String c s)) " " "_"
  = String (if Ascii.eqb " " (Py.lower_char c) then "_"%char
            else Py.lower_char c)
           (Py.replace (Py.lower s) " " "_").
Proof. cbn [Py.lower]. apply replace_char_cons. Qed.

Lemma lower_char_idempotent (c : ascii) :
  Py.lower_char (Py.lower_char c) = Py.lower_char c.
Proof. destruct c as [[] [] [] [] [] [] [] []]; reflexivity. Qed.

Lemma lower_idempotent (s : string) : Py.lower (Py.lower s) = Py.lower s.
Proof.
  induction s as [|c s IH]; [reflexivity |].
  simpl. now rewrite IH, lower_char_idempotent.
Qed.

Lemma normalized_char_fixed (c : ascii) :
  let h := fun x => if Ascii.eqb " " (Py.lower_char x) then "_"%char
                    else Py.lower_char x in
  h (h c) = h c /\ Py.lower_char (h c) = h c.
Proof. destruct c as [[] [] [] [] [] [] [] []]; split; reflexivity. Qed.

Lemma normalized_idempotent (s : string) :
  Py.replace (Py.lower (Py.replace (Py.lower s) " " "_")) " " "_"
  = Py.replace (Py.lower s) " " "_".
Proof.
  induction s as [|c s IH]; [reflexivity |].
  rewrite (normalized_cons c s), normalized_cons, IH.
  f_equal. apply (proj1 (normalized_char_fixed c)).
Qed.

Lemma normalized_lower (s : string) :
  Py.lower (Py.replace (Py.lower s) " " "_")
  = Py.replace (Py.lower s) " " "_".
Proof.
  induction s as [|c s IH]; [reflexivity |].
  rewrite normalized_cons. cbn [Py.lower]. rewrite IH.
  f_equal. apply (proj2 (normalized_char_fixed c)).
Qed.

(** X11.  Normalizing a tool twice is normalizing it once, and a
    normalized name holds no space and no upper-case letter. *)
Theorem model_post_init_idempotent t :
  model_post_init (model_post_init t) = model_post_init t
  /\ Py.str_in " " (name (model_post_init t)) = false
  /\ Py.lower (name (model_post_init t)) = name (model_post_init t).
Proof.
  split; [| split].
  - unfold model_post_init. cbn [name description arg run].
    now rewrite normalized_idempotent, !lower_idempotent.
  - apply replace_spaces.
  - apply normalized_lower.
Qed.

Lemma find_distinct (l : list HealthTool) t :
  NoDup (map name l) -> In t l ->
  List.find (fun t' => String.eqb (name t') (name t)) l = Some t.
Proof.
  induction l as [|x l IH]; intros Hnd Hin; [destruct Hin |].
  simpl in Hnd. inversion Hnd as [|? ? Hx Hl]; subst. simpl.
  destruct (String.eqb (name x) (name t)) eqn:E.
  - apply String.eqb_eq in E. destruct Hin as [-> | Hin]; [reflexivity |].
    exfalso. apply Hx. rewrite E. now apply in_map.
  - destruct Hin as [-> | Hin]; [now rewrite String.eqb_refl in E |].
    now apply IH.
Qed.

Lemma format_tools_distinct (ts : list HealthTool) t :
  NoDup (map name ts) -> In t ts ->
  Py.dict_get (name t) (_format_tools ts) = Some t.
Proof.
  intros Hnd Hin. rewrite format_tools_lookup. apply find_distinct.
  - rewrite map_rev. now apply NoDup_rev.
  - now apply in_rev in Hin.
Qed.

Lemma dict_set_keys_absent {V : Type} (k : string) (v : V) (d : Py.dict V) :
  ~ In k (Py.keys d) ->
  Py.keys (Py.dict_set k v d) = (Py.keys d ++ [k])%list.
Proof.
  induction d as [|[k' v'] d IH]; simpl; intros Hn; [reflexivity |].
  destruct (String.eqb k' k) eqn:E.
  - apply String.eqb_eq in E. tauto.
  - simpl. f_equal. apply IH. tauto.
Qed.

Lemma format_tools_keys (ts : list HealthTool) :
  NoDup (map name ts) -> Py.keys (_format_tools ts) = map name ts.
Proof.
  unfold _format_tools, Py.dict_of.
  assert (H : forall (l : list HealthTool) (d : Py.dict HealthTool),
             NoDup (Py.keys d ++ map name l) ->
             Py.keys (fold_left
                        (fun d kv => Py.dict_set (fst kv) (snd kv) d)
                        (combine (map name l) l) d)
             = (Py.keys d ++ map name l)%list).
  { induction l as [|t l IH]; intros d Hnd; simpl.
    - now rewrite app_nil_r.
    - simpl in Hnd. rewrite IH.
      + rewrite dict_set_keys_absent; [now rewrite <- app_assoc |].
        apply NoDup_remove_2 in Hnd. intros Hin. apply Hnd.
        apply in_or_app. now left.
      + rewrite dict_set_keys_absent.
        * rewrite <- app_assoc. exact Hnd.
        * apply NoDup_remove_2 in Hnd. intros Hin. apply Hnd.
          apply in_or_app. now left. }
  intros Hnd. now apply (H ts []).
Qed.

(** X12.  When the tools bear distinct names, the registry lists the
    names in the order of the tools, and looking a tool's name up gives
    that very tool back. *)
Theorem registry_round_trip (ts : list HealthTool) :
  NoDup (map name ts) ->
  Py.keys (_format_tools ts) = map name ts
  /\ forall t, In t ts -> Py.dict_get (name t) (_format_tools ts) = Some t.
Proof.
  intros Hnd. split; [now apply format_tools_keys |].
  intros t Hin. now apply format_tools_distinct.
Qed.

Lemma replace_prefix (old new rest : string) :
  old <> "" -> Py.find rest old = None ->
  Py.replace (old ++ rest) old new = new ++ rest.
Proof.
  intros Hold Hnone. unfold Py.replace.
  destruct (String.length (old ++ rest)) as [|k] eqn:Hlen.
  - destruct old; [congruence | discriminate].
  - cbn [Py.replace_from].
    rewrite (find_at_start _ _ (startswith_append old rest)).
    cbn [Py.take plus]. destruct (old ++ rest) eqn:E; [discriminate |].
    cbn [Py.take]. rewrite <- E, drop_append.
    now rewrite replace_from_none.
Qed.

Lemma lowercase_no_marker (s : string) :
  Py.lower s = s -> Py.str_in "Action:" s = false.
Proof.
  induction s as [|c s IH]; intros H; [reflexivity |].
  injection H as Hc Hs. cbn [Py.str_in]. rewrite (IH Hs), orb_false_r.
  unfold Py.startswith. destruct (Ascii.eqb "A" c) eqn:E; [| reflexivity].
  apply Ascii.eqb_eq in E. subst c. discriminate Hc.
Qed.

(** X13.  The name under which a tool is shown to the model selects it:
    when the normalized names are distinct, a completion whose last
    [Action:] line is [Action: ] followed by the normalized name of a
    tool runs that tool, provided the name is not empty and has no
    whitespace at either end. *)
Theorem advertised_name_dispatches (raw_tools : list HealthTool) self
        (text : string) w (pre post : list string) t :
  tools self = _format_tools (map model_post_init raw_tools) ->
  NoDup (map name (map model_post_init raw_tools)) ->
  In t (map model_post_init raw_tools) ->
  name t <> "" ->
  Py.strip (name t) = name t ->
  Py.split text Py.nl = (pre ++ ("Action: " ++ name t)%string :: post)%list ->
  Forall (fun x => Py.startswith x "Action:" = false) post ->
  _tool_call self text w
  = match run t (snd (_parse_action_string text)) w with
    | (Ok out, w') => ("Observation: " ++ out, w')
    | (Exc e, w') =>
        ("Observation: There was an error executing the tool." ++ Py.nl
         ++ "Error: " ++ e, w')
    end.
Proof.
  intros Htools Hnd Hin Hne Hstrip Hs Hpost.
  assert (Hlow : Py.lower (name t) = name t).
  { apply in_map_iff in Hin as (t0 & <- & _). apply normalized_lower. }
  assert (Hrep : Py.replace ("Action: " ++ name t) "Action:" "" = " " ++ name t).
  { change ("Action: " ++ name t) with ("Action:" ++ " " ++ name t).
    apply (replace_prefix "Action:" "" (" " ++ name t)); [discriminate |].
    apply str_in_false_find. cbn [Py.str_in String.append].
    now rewrite (lowercase_no_marker _ Hlow). }
  assert (Hact : fst (_parse_action_string text) = Some (name t)).
  { rewrite (parsed_action _ _ _ _ Hs eq_refl Hpost), Hrep.
    f_equal. exact Hstrip. }
  apply tool_call_selected. rewrite Hact. unfold selected_tool.
  destruct (name t) eqn:En; [congruence |]. cbn [Py.truthy].
  rewrite <- En in *. rewrite Hstrip, Hlow, Htools.
  now apply format_tools_distinct.
Qed.

End RegistryFacts.

(** ** The tools and the application *)

Section ToolFacts.

Lemma lower_append (a b : string) :
  Py.lower (a ++ b) = Py.lower a ++ Py.lower b.
Proof. induction a as [|c a IH]; simpl; [reflexivity | now rewrite IH]. Qed.

Lemma lower_split (p a b : string) :
  Py.lower p = a ++ b ->
  exists p1 p2, p = p1 ++ p2 /\ Py.lower p1 = a /\ Py.lower p2 = b.
Proof.
  revert p. induction a as [|c a IH]; intros p H.
  - now exists "", p.
  - destruct p as [|x p]; [discriminate |].
    simpl in H. injection H as Hc Hp.
    destruct (IH _ Hp) as (p1 & p2 & -> & H1 & H2).
    exists (String x p1), p2. simpl. now rewrite H1, Hc.
Qed.

(** X14.  A query is sensitive exactly when some part of it is, up to
    the case of its letters, one of the keywords: the match ignores case
    and does not stop at word boundaries. *)
Theorem sensitive_query_spec (prompt : string) :
  _is_sensitive_query prompt = true
  <-> exists keyword pre mid post,
        In keyword sensitive_keywords
        /\ prompt = pre ++ mid ++ post
        /\ Py.lower mid = keyword.
Proof.
  unfold _is_sensitive_query. rewrite existsb_exists. split.
  - intros (k & Hin & Hk). apply str_in_inv in Hk as (a & b & Hk).
    destruct (lower_split _ _ _ Hk) as (pre & rest & -> & _ & Hrest).
    destruct (lower_split _ _ _ Hrest) as (mid & post & -> & Hmid & _).
    now exists k, pre, mid, post.
  - intros (k & pre & mid & post & Hin & -> & Hmid).
    exists k. split; [exact Hin |].
    rewrite !lower_append, Hmid. apply str_in_append.
Qed.

Lemma clamp_bounds (z : Z) : (1 <= clamp_severity z <= 10)%Z.
Proof. unfold clamp_severity. lia. Qed.

(** X15.  For a text, an integer, a boolean, [None], a list or a
    dictionary given as severity (a float is not among the values
    modelled), the severity stored is between 1 and 10 and has a
    description; a text that is not one of the known words, a number
    written as text among them, is stored as 5. *)
Theorem symptom_severity_bounds (severity : PyValue) :
  (1 <= symptom_severity severity <= 10)%Z
  /\ severity_desc (symptom_severity severity) <> ""
  /\ (forall s, severity = VStr s ->
                Py.dict_get (Py.lower s) severity_map = None ->
                symptom_severity severity = 5%Z).
Proof.
  assert (Hb : (1 <= symptom_severity severity <= 10)%Z).
  { destruct severity; simpl; try apply clamp_bounds; lia. }
  split; [exact Hb | split].
  - assert (H : (symptom_severity severity = 1 \/ symptom_severity severity = 2
                 \/ symptom_severity severity = 3 \/ symptom_severity severity = 4
                 \/ symptom_severity severity = 5 \/ symptom_severity severity = 6
                 \/ symptom_severity severity = 7 \/ symptom_severity severity = 8
                 \/ symptom_severity severity = 9
                 \/ symptom_severity severity = 10)%Z) by lia.
    repeat destruct H as [H | H]; rewrite H; discriminate.
  - intros s -> Hnone. unfold symptom_severity, dict_get_default.
    now rewrite Hnone.
Qed.

Lemma keep_chars_length (keep : ascii -> bool) (s : string) :
  String.length (keep_chars keep s) <= String.length s.
Proof.
  induction s as [|c s IH]; simpl; [lia |].
  destruct (keep c); simpl; lia.
Qed.

Lemma keep_chars_idempotent (keep : ascii -> bool) (s : string) :
  keep_chars keep (keep_chars keep s) = keep_chars keep s.
Proof.
  induction s as [|c s IH]; [reflexivity |].
  simpl. destruct (keep c) eqn:E; [| exact IH].
  simpl. now rewrite E, IH.
Qed.

Lemma keep_chars_append (keep : ascii -> bool) (a b : string) :
  keep_chars keep (a ++ b) = keep_chars keep a ++ keep_chars keep b.
Proof.
  induction a as [|c a IH]; [reflexivity |].
  simpl. destruct (keep c); simpl; now rewrite IH.
Qed.

Lemma kept_cons (keep : ascii -> bool) (c : ascii) (s : string) :
  keep_chars keep (String c s) = String c s ->
  keep c = true /\ keep_chars keep s = s.
Proof.
  simpl. destruct (keep c) eqn:E.
  - intros [= H]. now split.
  - intros H. pose proof (keep_chars_length keep s) as Hl.
    rewrite H in Hl. simpl in Hl. lia.
Qed.

Lemma kept_excludes (keep : ascii -> bool) (c : ascii) (s : string) :
  keep_chars keep s = s -> keep c = false ->
  Py.str_in (String c "") s = false.
Proof.
  induction s as [|b s IH]; intros Hs Hc; [reflexivity |].
  apply kept_cons in Hs as [Hb Hs]. rewrite str_in_char, (IH Hs Hc).
  destruct (Ascii.eqb c b) eqn:E; [| reflexivity].
  apply Ascii.eqb_eq in E. congruence.
Qed.

Lemma id_char_not_space (c : ascii) : id_char c = true -> Py.isspace c = false.
Proof. destruct c as [[] [] [] [] [] [] [] []]; now compute. Qed.

Lemma kept_rstrip (s : string) :
  keep_chars id_char s = s -> Py.rstrip s = s.
Proof.
  induction s as [|c s IH]; intros Hs; [reflexivity |].
  apply kept_cons in Hs as [Hc Hs]. simpl. rewrite (IH Hs).
  destruct s; [now rewrite (id_char_not_space _ Hc) | reflexivity].
Qed.

Lemma safe_patient_id_kept (patient_id : string) :
  safe_patient_id patient_id <> ""
  /\ keep_chars id_char (safe_patient_id patient_id)
     = safe_patient_id patient_id.
Proof.
  unfold safe_patient_id.
  rewrite (kept_rstrip _ (keep_chars_idempotent id_char patient_id)).
  destruct (keep_chars id_char patient_id) eqn:E; cbn [Py.truthy].
  - split; [discriminate | reflexivity].
  - split; [discriminate |]. rewrite <- E. apply keep_chars_idempotent.
Qed.

(** X16.  The name under which a chat history is saved and loaded is made
    of letters, digits, [_] and [-] only, whatever the patient
    identifier: it holds no path separator and no dot, and is never
    empty.  Sanitizing again changes nothing, and a character that is
    dropped makes no difference: identifiers that differ by such
    characters share one history file. *)
Theorem safe_patient_id_spec (patient_id : string) :
  safe_patient_id patient_id <> ""
  /\ (forall c, id_char c = false ->
                Py.str_in (String c "") (safe_patient_id patient_id) = false)
  /\ safe_patient_id (safe_patient_id patient_id) = safe_patient_id patient_id
  /\ (forall c, id_char c = false ->
                history_file (patient_id ++ String c "")
                = history_file patient_id).
Proof.
  destruct (safe_patient_id_kept patient_id) as [Hne Hkept].
  split; [exact Hne | split; [| split]].
  - intros c Hc. now apply kept_excludes with (keep := id_char).
  - unfold safe_patient_id at 1. rewrite Hkept, (kept_rstrip _ Hkept).
    destruct (safe_patient_id patient_id); [congruence | reflexivity].
  - intros c Hc. unfold history_file, safe_patient_id.
    rewrite keep_chars_append. simpl. rewrite Hc. now rewrite append_nil_r.
Qed.






End ToolFacts.

(** ** The outcomes of a turn *)

Section OutcomeFacts.

Context {R : Runtime}.

Implicit Types (self : HealthGuardAgent) (w : World).

(** X18.  A turn ends in one of two ways.  Either the text returned is
    the stripped text after the last [Response:] of a completion, and
    that completion is the last message of the conversation, an
    assistant message; or it is the apology, and then a provider call
    has raised: no other failure leads to it. *)
Theorem turn_outcomes (fuel : nat) self (prompt : string) w
        (final : string) self' w' :
  __call__ fuel self prompt w = Some (Ok final, self', w') ->
  (exists completion p,
      Py.last_item (messages self') = Some (mkMessage assistant completion)
      /\ Py.startswith (Py.drop p completion) "Response:" = true
      /\ (forall q, p < q ->
                    Py.startswith (Py.drop q completion) "Response:" = false)
      /\ final = Py.strip (Py.drop (p + 9) completion))
  \/ (final = apology
      /\ exists e w0, get_response self' w0 = (Exc e, w')).
Proof.
  unfold __call__.
  destruct (agent_loop fuel _ w) as [[[[x | e] a] w0] |] eqn:E;
    [| | discriminate]; intros [= <- <- <-].
  - left. exact (loop_final _ _ _ _ _ _ E).
  - right. split; [reflexivity |].
    destruct (loop_raised _ _ _ _ _ _ E) as [w1 H]. now exists e, w1.
Qed.

End OutcomeFacts.

(** ** The further properties at concrete inputs *)

(** X1 on a turn that ends with a final response. *)
Lemma call_result_stripped_witness :
  __call__ 1 demo_agent "hello" (scripted [both_markers])
  = Some (Ok "Take your pill at 8am.",
          append_message asking assistant both_markers,
          asked_times 1 (scripted [both_markers]))
  /\ Py.strip "Take your pill at 8am." = "Take your pill at 8am.".
Proof.
  assert (H : __call__ 1 demo_agent "hello" (scripted [both_markers])
              = Some (Ok "Take your pill at 8am.",
                      append_message asking assistant both_markers,
                      asked_times 1 (scripted [both_markers])))
    by reflexivity.
  split; [exact H |].
  exact (call_result_stripped (R := demo_runtime) _ _ _ _ _ _ _ H).
Defined.

(** X2 on a tool whose database is locked: the Observation, and the
    turn that goes on after it to the final text. *)
Lemma tool_failure_observed_witness :
  selected_tool (append_message asking_locked assistant symptom_step)
    (fst (_parse_action_string (R := demo_runtime) symptom_step))
  = Some locked_tool
  /\ run locked_tool (snd (_parse_action_string (R := demo_runtime) symptom_step))
       (asked_times 1 (scripted [symptom_step; both_markers]))
     = (Exc "database is locked",
        asked_times 1 (scripted [symptom_step; both_markers]))
  /\ get_response asking_locked (scripted [symptom_step; both_markers])
     = (Ok symptom_step, asked_times 1 (scripted [symptom_step; both_markers]))
  /\ _tool_call (append_message asking_locked assistant symptom_step)
       symptom_step (asked_times 1 (scripted [symptom_step; both_markers]))
     = ("Observation: There was an error executing the tool." ++ Py.nl
        ++ "Error: database is locked",
        asked_times 1 (scripted [symptom_step; both_markers]))
  /\ messages
       (append_message (append_message asking_locked assistant symptom_step)
          user
          ("Observation: There was an error executing the tool." ++ Py.nl
           ++ "Error: database is locked"))
     = (messages asking_locked
        ++ [mkMessage assistant symptom_step;
            mkMessage user
              ("Observation: There was an error executing the tool." ++ Py.nl
               ++ "Error: database is locked")])%list
  /\ exists p,
      Py.startswith (Py.drop p both_markers) "Response:" = true
      /\ (forall q, p < q ->
                    Py.startswith (Py.drop q both_markers) "Response:" = false)
      /\ agent_loop 2 asking_locked (scripted [symptom_step; both_markers])
         = Some (Ok (Py.strip (Py.drop (p + 9) both_markers)),
                 append_message
                   (append_message
                      (append_message asking_locked assistant symptom_step)
                      user
                      ("Observation: There was an error executing the tool."
                       ++ Py.nl ++ "Error: database is locked"))
                   assistant both_markers,
                 asked_times 2 (scripted [symptom_step; both_markers])).
Proof.
  assert (H1 : selected_tool
                 (append_message asking_locked assistant symptom_step)
                 (fst (_parse_action_string (R := demo_runtime) symptom_step))
               = Some locked_tool) by reflexivity.
  assert (H2 : run locked_tool
                 (snd (_parse_action_string (R := demo_runtime) symptom_step))
                 (asked_times 1 (scripted [symptom_step; both_markers]))
               = (Exc "database is locked",
                  asked_times 1 (scripted [symptom_step; both_markers])))
    by reflexivity.
  assert (H3 : get_response asking_locked
                 (scripted [symptom_step; both_markers])
               = (Ok symptom_step,
                  asked_times 1 (scripted [symptom_step; both_markers])))
    by reflexivity.
  split; [exact H1 | split; [exact H2 | split; [exact H3 |]]].
  destruct (tool_failure_observed (R := demo_runtime) _ _ _ _ _ _ H1 H2)
    as (Hcall & Hloop).
  destruct (Hloop 0 asking_locked (scripted [symptom_step; both_markers])
              eq_refl H3 eq_refl eq_refl eq_refl)
    as (Hmsgs & _ & Hfinal & _).
  split; [exact Hcall | split; [exact Hmsgs |]].
  exact (Hfinal both_markers
           (asked_times 2 (scripted [symptom_step; both_markers]))
           eq_refl eq_refl).
Defined.

(** The turn goes on after the failure of the tool. *)
Example tool_failure_run :
  __call__ 2 (agent_with [locked_tool]) "hello"
    (scripted [symptom_step; both_markers])
  = Some (Ok "Take your pill at 8am.",
          append_message
            (append_message
               (append_message
                  (append_message (agent_with [locked_tool]) user
                     "Patient: hello")
                  assistant symptom_step)
               user
               ("Observation: There was an error executing the tool."
                ++ Py.nl ++ "Error: database is locked"))
            assistant both_markers,
          asked_times 2 (scripted [symptom_step; both_markers])).
Proof. reflexivity. Qed.

(** X3 on a turn with one tool step. *)
Lemma turn_transcript_witness :
  __call__ 2 demo_agent "hello" (scripted [unknown_step; both_markers])
  = Some (Ok "Take your pill at 8am.",
          append_message
            (append_message
               (append_message asking assistant unknown_step) user
               "Observation: Tool 'unknown_tool' not found. Available tools: ['medication_tool', 'symptom_tool']")
            assistant both_markers,
          asked_times 2 (scripted [unknown_step; both_markers]))
  /\ exists more,
      append_message
        (append_message
           (append_message asking assistant unknown_step) user
           "Observation: Tool 'unknown_tool' not found. Available tools: ['medication_tool', 'symptom_tool']")
        assistant both_markers
      = set_messages demo_agent
          (messages demo_agent
           ++ mkMessage user ("Patient: " ++ "hello") :: more)
      /\ forallb turn_message more = true.
Proof.
  assert (H : __call__ 2 demo_agent "hello"
                (scripted [unknown_step; both_markers])
              = Some (Ok "Take your pill at 8am.",
                      append_message
                        (append_message
                           (append_message asking assistant unknown_step) user
                           "Observation: Tool 'unknown_tool' not found. Available tools: ['medication_tool', 'symptom_tool']")
                        assistant both_markers,
                      asked_times 2 (scripted [unknown_step; both_markers])))
    by reflexivity.
  split; [exact H |].
  exact (turn_transcript (R := demo_runtime) _ _ _ _ _ _ _ H).
Defined.

(** X4 on a turn, a clearing and a reading of the history. *)
Lemma one_system_message_witness :
  __init__ demo_env [medication_tool; symptom_tool] None (Some "p1")
  = Ok demo_agent
  /\ run_calls [CallHandle 1 "hello"; CallHistory; CallClear;
                CallHandle 1 "again"]
       demo_agent (scripted [both_markers; both_markers])
     = Some (append_message
               (append_message demo_agent user "Patient: again")
               assistant both_markers,
             asked_times 2 (scripted [both_markers; both_markers]))
  /\ exists first rest,
      messages demo_agent = [first]
      /\ role first = system
      /\ append_message
           (append_message demo_agent user "Patient: again")
           assistant both_markers
         = set_messages demo_agent (first :: rest)
      /\ Forall (fun m => role m <> system) rest.
Proof.
  assert (H1 : __init__ demo_env [medication_tool; symptom_tool] None
                 (Some "p1") = Ok demo_agent) by reflexivity.
  assert (H2 : run_calls [CallHandle 1 "hello"; CallHistory; CallClear;
                          CallHandle 1 "again"]
                 demo_agent (scripted [both_markers; both_markers])
               = Some (append_message
                         (append_message demo_agent user "Patient: again")
                         assistant both_markers,
                       asked_times 2 (scripted [both_markers; both_markers])))
    by reflexivity.
  split; [exact H1 | split; [exact H2 |]].
  exact (one_system_message (R := demo_runtime) _ _ _ _ _ _ _ _ _ H1 H2).
Defined.

(** X6 on the agent of Scenario A. *)
Lemma health_prompt_lists_tools_witness :
  __init__ demo_env [medication_tool; symptom_tool] None (Some "p1")
  = Ok demo_agent
  /\ (forall t, In t [medication_tool; symptom_tool] ->
                Py.str_in (get_tool_description t) (health_prompt demo_agent)
                = true
                /\ Py.str_in (name t) (health_prompt demo_agent) = true)
  /\ messages demo_agent = [mkMessage system (health_prompt demo_agent)].
Proof.
  split; [reflexivity |].
  apply (health_prompt_lists_tools (R := demo_runtime) demo_env
           [medication_tool; symptom_tool] None (Some "p1") demo_agent).
  reflexivity.
Defined.

(** X7 on the agent of Scenario A with a patient message. *)
Lemma gemini_prompt_rendering_witness :
  llm_provider asking = gemini
  /\ exists full_prompt,
      get_response asking (always (Ok ""))
      = generate_content (Runtime := demo_runtime) full_prompt
          (always (Ok ""))
      /\ (forall m, In m (messages asking) ->
                    Py.str_in (prompt_part m) full_prompt = true
                    /\ Py.str_in (content m) full_prompt = true)
      /\ (forall a b,
             get_response
               (set_messages asking
                  (messages asking
                   ++ [mkMessage user (a ++ Py.nl ++ Py.nl ++ "System: " ++ b)]))
               (always (Ok ""))
             = get_response
                 (set_messages asking
                    (messages asking ++ [mkMessage user a; mkMessage system b]))
                 (always (Ok ""))).
Proof.
  split; [reflexivity |].
  apply (gemini_prompt_rendering (R := demo_runtime) asking (always (Ok ""))).
  reflexivity.
Defined.

(** X8 on a completion whose [Action:] line is indented. *)
Lemma action_needs_line_start_witness :
  Py.str_in "Action:" indented_action = true
  /\ Forall (fun x => Py.startswith x "Action:" = false)
            (Py.split indented_action Py.nl)
  /\ _tool_call demo_agent indented_action (always (Ok ""))
     = ("Observation: Tool 'None' not found. Available tools: ['medication_tool', 'symptom_tool']",
        always (Ok "")).
Proof.
  assert (H : Forall (fun x => Py.startswith x "Action:" = false)
                     (Py.split indented_action Py.nl))
    by (repeat constructor).
  split; [reflexivity | split; [exact H |]].
  exact (proj2 (action_needs_line_start (R := demo_runtime) demo_agent
                  indented_action (always (Ok ""))) H).
Defined.

(** X10 on thoughts and an observation read after the argument is
    closed. *)
Lemma idle_lines_ignored_witness :
  is_action_input (mkParse (Some "symptom_tool") ["list"] false) = false
  /\ Forall (fun x => Py.startswith x "Action Input:" = false)
            ["Observation: two symptoms"; "Thought: enough"; "   more text"]
  /\ action_input
       (parse_lines (mkParse (Some "symptom_tool") ["list"] false)
          ["Observation: two symptoms"; "Thought: enough"; "   more text"])
     = ["list"]
  /\ is_action_input
       (parse_lines (mkParse (Some "symptom_tool") ["list"] false)
          ["Observation: two symptoms"; "Thought: enough"; "   more text"])
     = false.
Proof.
  assert (H : Forall (fun x => Py.startswith x "Action Input:" = false)
                     ["Observation: two symptoms"; "Thought: enough";
                      "   more text"])
    by (repeat constructor).
  split; [reflexivity | split; [exact H |]].
  exact (idle_lines_ignored (mkParse (Some "symptom_tool") ["list"] false)
           _ eq_refl H).
Defined.

(** X12 on the two tools of Scenario A. *)
Lemma registry_round_trip_witness :
  NoDup (map name [medication_tool; symptom_tool])
  /\ Py.keys (_format_tools [medication_tool; symptom_tool])
     = map name [medication_tool; symptom_tool]
  /\ forall t, In t [medication_tool; symptom_tool] ->
               Py.dict_get (name t) (_format_tools [medication_tool; symptom_tool])
               = Some t.
Proof.
  assert (H : NoDup (map name [medication_tool; symptom_tool])).
  { repeat constructor; simpl; intuition discriminate. }
  split; [exact H |].
  exact (registry_round_trip (R := demo_runtime) _ H).
Defined.

(** X13 on Scenario A. *)
Lemma advertised_name_dispatches_witness :
  tools demo_agent
  = _format_tools
      (map model_post_init
         [raw_tool "Medication Tool" "2 medications";
          raw_tool "Symptom Tool" "no symptoms"])
  /\ NoDup (map name
              (map model_post_init
                 [raw_tool "Medication Tool" "2 medications";
                  raw_tool "Symptom Tool" "no symptoms"]))
  /\ In medication_tool
        (map model_post_init
           [raw_tool "Medication Tool" "2 medications";
            raw_tool "Symptom Tool" "no symptoms"])
  /\ name medication_tool <> ""
  /\ Py.strip (name medication_tool) = name medication_tool
  /\ Py.split scenario_A Py.nl
     = (["Thought: ok"] ++ ("Action: " ++ name medication_tool)%string
          :: [scenario_A_input; "Observation:"])%list
  /\ Forall (fun x => Py.startswith x "Action:" = false)
            [scenario_A_input; "Observation:"]
  /\ _tool_call demo_agent scenario_A (always (Ok ""))
     = ("Observation: 2 medications",
        mkWorld (fun _ => Ok "") 0
          [("Medication Tool",
            Structured (JObject [("action", JString "list");
                                 ("patient_id", JString "p1")]))]).
Proof.
  assert (H1 : tools demo_agent
               = _format_tools
                   (map model_post_init
                      [raw_tool "Medication Tool" "2 medications";
                       raw_tool "Symptom Tool" "no symptoms"]))
    by reflexivity.
  assert (H2 : NoDup (map name
                        (map model_post_init
                           [raw_tool "Medication Tool" "2 medications";
                            raw_tool "Symptom Tool" "no symptoms"]))).
  { repeat constructor; simpl; intuition discriminate. }
  assert (H3 : In medication_tool
                  (map model_post_init
                     [raw_tool "Medication Tool" "2 medications";
                      raw_tool "Symptom Tool" "no symptoms"]))
    by (left; reflexivity).
  assert (H4 : name medication_tool <> "") by discriminate.
  assert (H6 : Py.split scenario_A Py.nl
               = (["Thought: ok"] ++ ("Action: " ++ name medication_tool)%string
                    :: [scenario_A_input; "Observation:"])%list)
    by reflexivity.
  assert (H7 : Forall (fun x => Py.startswith x "Action:" = false)
                      [scenario_A_input; "Observation:"])
    by (repeat constructor).
  split; [exact H1 | split; [exact H2 | split; [exact H3 | split;
    [exact H4 | split; [reflexivity | split; [exact H6 | split;
    [exact H7 |]]]]]]].
  rewrite (advertised_name_dispatches (R := demo_runtime) _ demo_agent
             scenario_A (always (Ok "")) _ _ medication_tool
             H1 H2 H3 H4 eq_refl H6 H7).
  reflexivity.
Defined.

(** X18 on a turn that ends with a final response. *)
Lemma turn_outcomes_witness :
  __call__ 1 demo_agent "hello" (scripted [both_markers])
  = Some (Ok "Take your pill at 8am.",
          append_message asking assistant both_markers,
          asked_times 1 (scripted [both_markers]))
  /\ ((exists completion p,
          Py.last_item (messages (append_message asking assistant both_markers))
          = Some (mkMessage assistant completion)
          /\ Py.startswith (Py.drop p completion) "Response:" = true
          /\ (forall q, p < q ->
                        Py.startswith (Py.drop q completion) "Response:"
                        = false)
          /\ "Take your pill at 8am."
             = Py.strip (Py.drop (p + 9) completion))
      \/ ("Take your pill at 8am." = apology
          /\ exists e w0,
              get_response (append_message asking assistant both_markers) w0
              = (Exc e, asked_times 1 (scripted [both_markers])))).
Proof.
  assert (H : __call__ 1 demo_agent "hello" (scripted [both_markers])
              = Some (Ok "Take your pill at 8am.",
                      append_message asking assistant both_markers,
                      asked_times 1 (scripted [both_markers])))
    by reflexivity.
  split; [exact H |].
  exact (turn_outcomes (R := demo_runtime) _ _ _ _ _ _ _ H).
Defined.
